(** * SEIR+ : an extended compartmental epidemic model fitted by binomial likelihood

    Shallow embedding of [src/SEIR+.py] (class [SEIR]).

    Numbers.  The program computes with binary64 floats.  Finite values are
    embedded as exact rationals ([Q]); the non-finite results that numpy
    produces instead of raising (division by zero, [np.log 0], an invalid
    [binom.pmf]) are kept apart in [npfloat].  Rounding error of the finite
    operations is not modelled there, and zero carries no sign; the
    right-hand side of the system is embedded a second time in binary64
    ([differential64]), where the rounding decides a statement.

    Exceptions.  A Python exception is a [Raise] in the [result] monad.

    Library code ([scipy.integrate.odeint], [scipy.optimize.minimize],
    [scipy.stats.binom.pmf], [np.log]) and the repository's [smoothing]
    module are parameters of the development. *)

From Stdlib Require Import String QArith ZArith List Bool Lia Lqa Qround.
From Stdlib Require Floats.PrimFloat.
Import ListNotations.

Set Implicit Arguments.

Local Open Scope Q_scope.

(* ================================================================== *)
(** ** Floats that may be non-finite *)
(* ================================================================== *)

Module NpFloat.

Inductive npfloat : Type :=
| Finite (q : Q)
| PosInf
| NegInf
| NaN.

Definition Qltb (a b : Q) : bool :=
  match a ?= b with Lt => true | _ => false end.

Definition Qsign (a : Q) : comparison := a ?= 0.

Definition np_neg (a : npfloat) : npfloat :=
  match a with
  | Finite q => Finite (- q)
  | PosInf => NegInf
  | NegInf => PosInf
  | NaN => NaN
  end.

Definition np_add (a b : npfloat) : npfloat :=
  match a, b with
  | Finite x, Finite y => Finite (x + y)
  | NaN, _ | _, NaN => NaN
  | PosInf, NegInf | NegInf, PosInf => NaN
  | PosInf, _ | _, PosInf => PosInf
  | NegInf, _ | _, NegInf => NegInf
  end.

Definition np_sub (a b : npfloat) : npfloat := np_add a (np_neg b).

(** An infinity of the sign of [c], NaN when [c] is zero. *)
Definition inf_of_sign (c : comparison) : npfloat :=
  match c with Gt => PosInf | Lt => NegInf | Eq => NaN end.

Definition np_sign (a : npfloat) : option comparison :=
  match a with
  | Finite q => Some (Qsign q)
  | PosInf => Some Gt
  | NegInf => Some Lt
  | NaN => None
  end.

Definition mul_sign (a b : comparison) : comparison :=
  match a, b with
  | Eq, _ | _, Eq => Eq
  | Gt, Gt | Lt, Lt => Gt
  | _, _ => Lt
  end.

Definition np_mul (a b : npfloat) : npfloat :=
  match a, b with
  | Finite x, Finite y => Finite (x * y)
  | _, _ =>
      match np_sign a, np_sign b with
      | Some sa, Some sb => inf_of_sign (mul_sign sa sb)
      | _, _ => NaN
      end
  end.

(** numpy division: a zero divisor gives an infinity or NaN, no exception. *)
Definition np_div (a b : npfloat) : npfloat :=
  match a, b with
  | Finite x, Finite y =>
      match Qsign y with
      | Eq => inf_of_sign (Qsign x)
      | _ => Finite (x / y)
      end
  | NaN, _ | _, NaN => NaN
  | Finite _, _ => Finite 0
  | _, Finite y =>
      match np_sign a with
      | Some sa => inf_of_sign (mul_sign sa (match Qsign y with Lt => Lt | _ => Gt end))
      | None => NaN
      end
  | _, _ => NaN
  end.

(** [a < b]; any comparison with NaN is false. *)
Definition np_lt (a b : npfloat) : bool :=
  match a, b with
  | NaN, _ | _, NaN => false
  | Finite x, Finite y => Qltb x y
  | NegInf, NegInf => false
  | NegInf, _ => true
  | _, PosInf => match a with PosInf => false | _ => true end
  | _, _ => false
  end.

(** [a > 0]. *)
Definition np_gt0 (a : npfloat) : bool := np_lt (Finite 0) a.

(** [a == -math.inf]. *)
Definition np_is_neginf (a : npfloat) : bool :=
  match a with NegInf => true | _ => false end.

(** [math.isnan a]. *)
Definition np_isnan (a : npfloat) : bool :=
  match a with NaN => true | _ => false end.

Definition is_finite (a : npfloat) : Prop :=
  match a with Finite _ => True | _ => False end.

(** Equality of floats up to the representation of a rational. *)
Definition np_eq (a b : npfloat) : Prop :=
  match a, b with
  | Finite x, Finite y => x == y
  | PosInf, PosInf | NegInf, NegInf | NaN, NaN => True
  | _, _ => False
  end.

(** [np.around x] and Python's [round x]: to the nearest integer, a tie
    going to the even one. *)
Definition round_half_even (q : Q) : Z :=
  let f := Qfloor q in
  match ((q - inject_Z f) ?= (1 # 2))%Q with
  | Lt => f
  | Gt => (f + 1)%Z
  | Eq => if Z.even f then f else (f + 1)%Z
  end.

Definition np_around (q : Q) : Q := inject_Z (round_half_even q).

End NpFloat.
Export NpFloat.

(* ================================================================== *)
(** ** Python exceptions, sequences and indexing *)
(* ================================================================== *)

Module Py.

Inductive pyerr : Type :=
| TypeError
| IndexError
| ValueError
| KeyError
| AttributeError
| ZeroDivisionError.

Inductive result (A : Type) : Type :=
| Ok (a : A)
| Raise (e : pyerr).

Arguments Ok {A} a.
Arguments Raise {A} e.

Definition bind {A B : Type} (c : result A) (k : A -> result B) : result B :=
  match c with
  | Ok a => k a
  | Raise e => Raise e
  end.

(** [l[i]] for a Python sequence: a negative index counts from the end. *)
Definition py_getitem {A : Type} (l : list A) (i : Z) : result A :=
  let n := Z.of_nat (length l) in
  let j := if (i <? 0)%Z then (n + i)%Z else i in
  if ((0 <=? j)%Z && (j <? n)%Z)%bool
  then match nth_error l (Z.to_nat j) with
       | Some a => Ok a
       | None => Raise IndexError
       end
  else Raise IndexError.

(** [range(0, n)] *)
Definition py_range (n : nat) : list Z := map Z.of_nat (seq 0 n).

(** A loop whose body may raise: [for x in xs: acc = body(acc, x)]. *)
Fixpoint for_each {A S : Type} (xs : list A) (body : S -> A -> result S)
         (acc : S) : result S :=
  match xs with
  | [] => Ok acc
  | x :: rest => bind (body acc x) (for_each rest body)
  end.

(** Python's true division on Python numbers raises on a zero divisor. *)
Definition py_div (a b : Q) : result Q :=
  match b ?= 0 with
  | Eq => Raise ZeroDivisionError
  | _ => Ok (a / b)
  end.

End Py.
Export Py.

Notation "x <- c ;; k" := (bind c (fun x => k))
  (at level 61, c at next level, right associativity).

(* ================================================================== *)
(** ** Data model *)
(* ================================================================== *)

(** The state vector [(S, E, I, R, H, C, D, CT, CH)] handed to the
    integrator, in the order of the source tuple.  A field is named [cS]
    for [S] and so on, [S] and [I] being constructors of the prelude. *)
Record State : Type := mkState {
  cS : Q; cE : Q; cI : Q; cR : Q; cH : Q; cC : Q; cD : Q; cCT : Q; cCH : Q
}.

(** The tuple [(dS, dE, dI, dR, dH, dC, dD, dCT, dCH)] returned by
    [differential]. *)
Record Deriv : Type := mkDeriv {
  dS : npfloat; dE : npfloat; dI : npfloat; dR : npfloat; dH : npfloat;
  dC : npfloat; dD : npfloat; dCT : npfloat; dCH : npfloat
}.

(** "Model parameters" of [__init__]. *)
Record Params : Type := mkParams {
  beta : Q; sigma : Q; gamma : Q; hp : Q; hcr : Q;
  pc : Q; pd : Q; pcr : Q; s : Q; t : Q
}.

(** "Initial state" fields of [__init__]; [import_dataset] overwrites some
    of them with the result of a numpy division. *)
Record InitFields : Type := mkInitFields {
  I_0 : npfloat; E_0 : npfloat; R_0 : npfloat; S_0 : npfloat;
  H_0 : Q; C_0 : Q; D_0 : Q; CT_0 : Q
}.

(** "Hyperparameters dashboard" of [__init__]. *)
Record Hyper : Type := mkHyper {
  w_1 : Q; w_2 : Q; w_3 : Q; w_4 : Q; w_5 : Q; w_6 : Q;
  overflow : Q;
  smoothing : bool;
  b_s_1 : Q; b_s_2 : Q; b_s_3 : Q; b_s_4 : Q; b_s_5 : Q; b_s_6 : Q;
  opti_step : Q;
  beta_min : Q; beta_max : Q; sigma_min : Q; sigma_max : Q;
  gamma_min : Q; gamma_max : Q; hp_min : Q; hp_max : Q;
  hcr_min : Q; hcr_max : Q; pc_min : Q; pc_max : Q;
  pd_min : Q; pd_max : Q; pcr_min : Q; pcr_max : Q;
  s_min : Q; s_max : Q; t_min : Q; t_max : Q;
  cobyla : bool; LBFGSB : bool; auto : bool
}.

(** A pandas frame or a 2-D numpy array, row by row. *)
Definition Table : Type := list (list Q).

(** The object [self], its fields in the groups in which [__init__] sets
    them. *)
Record SEIR : Type := mkSEIR {
  prm : Params;
  dataframe : option Table;
  dataset : option Table;
  init0 : InitFields;
  hyper : Hyper
}.

(** [SEIR()] : the values set by [__init__]. *)
Definition SEIR_init : SEIR :=
  {| prm := {| beta := 3 # 10; sigma := 8 # 10; gamma := 15 # 100;
               hp := 5 # 100; hcr := 2 # 10; pc := 1 # 10; pd := 1 # 10;
               pcr := 3 # 10; s := 765 # 1000; t := 75 # 100 |};
     dataframe := None;
     dataset := None;
     init0 := {| I_0 := Finite 2; E_0 := Finite 3; R_0 := Finite 0;
                 S_0 := Finite (1000000 - 2 - 3);
                 H_0 := 0; C_0 := 0; D_0 := 0; CT_0 := 2 |};
     hyper := {| w_1 := 7 # 10; w_2 := 3 # 10; w_3 := 7 # 10; w_4 := 3 # 10;
                 w_5 := 1; w_6 := 1;
                 overflow := - (1000);
                 smoothing := false;
                 b_s_1 := 6; b_s_2 := 2; b_s_3 := 6; b_s_4 := 2;
                 b_s_5 := 4; b_s_6 := 4;
                 opti_step := 5 # 100;
                 beta_min := 1 # 10; beta_max := 9 # 10;
                 sigma_min := 1 / 5; sigma_max := 1;
                 gamma_min := 1 / 10; gamma_max := 1 / 4;
                 hp_min := 1 # 100; hp_max := 5 # 10;
                 hcr_min := 1 # 100; hcr_max := 4 # 10;
                 pc_min := 1 # 100; pc_max := 4 # 10;
                 pd_min := 1 # 100; pd_max := 5 # 10;
                 pcr_min := 1 # 100; pcr_max := 4 # 10;
                 s_min := 7 # 10; s_max := 85 # 100;
                 t_min := 5 # 10; t_max := 1;
                 cobyla := true; LBFGSB := false; auto := false |} |}.

(** [a[i][j]] on a 2-D array. *)
Definition nd_get (a : Table) (i j : Z) : result Q :=
  row <- py_getitem a i ;; py_getitem row j.

(** [self.dataset[...]] : subscripting [None] is a [TypeError]. *)
Definition the_dataset (m : SEIR) : result Table :=
  match dataset m with
  | Some ds => Ok ds
  | None => Raise TypeError
  end.

(** [np.arange(duration)] *)
Definition np_arange (duration : Z) : list Q :=
  map (fun i => inject_Z (Z.of_nat i)) (seq 0 (Z.to_nat duration)).


(* ================================================================== *)
(** ** The model: parameters, initial state, right-hand side *)
(* ================================================================== *)

Definition get_parameters (m : SEIR) : list Q :=
  let p := prm m in
  [beta p; sigma p; gamma p; hp p; hcr p; pc p; pd p; pcr p; s p; t p].

Definition get_initial_state (m : SEIR) : result State :=
  ds <- the_dataset m ;;
  I_0 <- nd_get ds 0 1 ;;
  H_0 <- nd_get ds 0 3 ;;
  let E_0 := I_0 in
  let D_0 := 0 in
  let C_0 := 0 in
  let S_0 := 1000000 - I_0 - H_0 - E_0 in
  let R_0 := 0 in
  let CT_0 := I_0 in
  let CH_0 := H_0 in
  Ok (mkState S_0 E_0 I_0 R_0 H_0 C_0 D_0 CT_0 CH_0).

(** [differential(self, state, time, beta, ..., t)], called by the
    integrator as [func(y, t, *args)]: any number of extra arguments other
    than ten is a [TypeError].  The two quotients are numpy divisions. *)
Definition differential (state : State) (time : Q) (args : list Q) : result Deriv :=
  match args with
  | [beta; sigma; gamma; hp; hcr; pc; pd; pcr; s; t] =>
      let S := cS state in let E := cE state in let I := cI state in
      let R := cR state in let H := cH state in let C := cC state in
      let D := cD state in let CT := cCT state in let CH := cCH state in
      let dS := np_div (np_neg (Finite (beta * S * I))) (Finite (S + I + E + R + H + C + D)) in
      let dE := np_sub (np_div (Finite (beta * S * I)) (Finite (S + I + E + R + H + C + D)))
                       (Finite (sigma * E)) in
      let dI := Finite ((sigma * E) - (gamma * I) - (hp * I)) in
      let dH := Finite ((hp * I) - (hcr * H) - (pc * H)) in
      let dC := Finite ((pc * H) - (pd * C) - (pcr * C)) in
      let dD := Finite (pd * C) in
      let dR := Finite ((gamma * I) + (hcr * H) + (pcr * C)) in
      let dCT := Finite (sigma * E) in
      let dCH := Finite (hp * I) in
      Ok (mkDeriv dS dE dI dR dH dC dD dCT dCH)
  | _ => Raise TypeError
  end.

(** The sum [dS + dE + dI + dR + dH + dC + dD] of the seven compartment
    components of a derivative. *)
Definition compartment_sum (d : Deriv) : npfloat :=
  np_add (np_add (np_add (np_add (np_add (np_add (dS d) (dE d)) (dI d)) (dR d)) (dH d)) (dC d)) (dD d).

(** The mixing population the specification writes for the force of
    infection: [S + I + E + R + H + C], without [D]. *)
Definition spec_mixing_population (st : State) : Q :=
  cS st + cI st + cE st + cR st + cH st + cC st.

(** The denominator of the source: [S + I + E + R + H + C + D]. *)
Definition mixing_population (st : State) : Q :=
  cS st + cI st + cE st + cR st + cH st + cC st + cD st.

(** [list(state)] : the row of a trajectory, indexed by position. *)
Definition state_row (st : State) : list Q :=
  [cS st; cE st; cI st; cR st; cH st; cC st; cD st; cCT st; cCH st].

(** [pred[i][j]] on a trajectory. *)
Definition pred_get (pred : list State) (i j : Z) : result Q :=
  row <- py_getitem pred i ;; py_getitem (state_row row) j.

(* ================================================================== *)
(** ** Code outside the file *)
(* ================================================================== *)

(** What [scipy.optimize.minimize] is called with. *)
Record Constraint : Type := mkConstraint {
  ctype : string;
  cfun : list Q -> result Q
}.

Record MinimizeCall : Type := mkMinimizeCall {
  mc_fun : list Q -> list string -> result (option npfloat);
  mc_x0 : list Q;
  mc_method : option string;
  mc_args : list string;
  mc_bounds : option (list (Q * Q));
  mc_constraints : list Constraint;
  mc_eps : option Q
}.

Module OptimizeResult.
Record t : Type := mk {
  x : list Q;
  success : bool
}.
End OptimizeResult.

(** The library functions and the [smoothing] module the class calls.
    [binom_pmf k n p] is [None] where scipy answers nan and a probability
    otherwise; [ln] is [np.log] on the positive finite floats. *)
Class Externals : Type := {
  odeint : (State -> Q -> result Deriv) -> State -> list Q -> result (list State);
  binom_pmf : Q -> Q -> Q -> option Q;
  ln : Q -> Q;
  minimize : MinimizeCall -> result OptimizeResult.t;
  dataframe_smoothing : Table -> Table
}.

(** What the development relies on about [odeint]: the result has one row
    per time point and starts with [y0]; the right-hand side is evaluated at
    [(y0, t[0])] before the first step, and an exception it raises is the
    exception of the call; and the call returns whenever the right-hand side
    does (a failed integration is a warning, not an exception). *)
Record odeint_contract (E : Externals) : Prop := {
  odeint_rows : forall f y0 ts tr,
      odeint f y0 ts = Ok tr -> length tr = length ts;
  odeint_row0 : forall f y0 t0 ts tr,
      odeint f y0 (t0 :: ts) = Ok tr -> nth_error tr 0 = Some y0;
  odeint_raises : forall f y0 t0 t1 ts e,
      f y0 t0 = Raise e -> odeint f y0 (t0 :: t1 :: ts) = Raise e;
  odeint_returns : forall f y0 t0 ts,
      (forall y u, exists d, f y u = Ok d) ->
      exists tr, odeint f y0 (t0 :: ts) = Ok tr
}.

Section Model.

Context {E : Externals}.

(** [np.log] *)
Definition np_log (a : npfloat) : npfloat :=
  match a with
  | Finite q =>
      match Qsign q with
      | Gt => Finite (ln q)
      | Eq => NegInf
      | Lt => NaN
      end
  | PosInf => PosInf
  | NegInf => NaN
  | NaN => NaN
  end.

(** [binom.pmf(k=k, n=n, p=p)] as a float. *)
Definition pmf (k n p : Q) : npfloat :=
  match binom_pmf k n p with
  | Some q => Finite q
  | None => NaN
  end.

(* ---------------------------------------------------------------- *)
(** *** predict *)

Definition predict (m : SEIR) (duration : Z)
           (initial_state : option State) (parameters : option (list Q))
  : result (list State) :=
  let time := np_arange duration in
  let prm := match parameters with
             | None => get_parameters m
             | Some prm => prm
             end in
  init <- match initial_state with
          | None => get_initial_state m
          | Some init => Ok init
          end ;;
  odeint (fun y u => differential y u prm) init time.

(* ---------------------------------------------------------------- *)
(** *** objective *)

(** "Uncumul contaminations": the list [conta] built from column 7. *)
Definition uncumul (pred : list State) : result (list Q) :=
  c0 <- pred_get pred 0 7 ;;
  for_each (py_range (length pred))
           (fun conta i =>
              a <- pred_get pred i 7 ;;
              b <- pred_get pred (i - 1) 7 ;;
              Ok (conta ++ [a - b]))
           [c0].

(** The three [if]s that repair a degenerate pair [(k, n)]. *)
Definition normalize (k n : Q) : Q * Q :=
  let '(k, n) := if (Qltb k 0 && Qltb n 0)%bool
                 then (k * - (1), n * - (1)) else (k, n) in
  let '(k, n) := if Qltb n k then (n, k) else (k, n) in
  if Qltb k 0 then (1, n + (1 + 1)) else (k, n).

(** One "PART" of the loop body, from the rounded prediction [n], the
    observation [k] and the smoother [b_s] to the value [p_k]. *)
Definition likelihood_term (overflow : Q) (n k b_s : Q) : result npfloat :=
  p <- py_div 1 b_s ;;
  let '(k, n) := normalize k n in
  let n := n * b_s in
  let prob := pmf k n p in
  Ok (if np_gt0 prob then np_log (pmf k n p) else Finite overflow).

(** [prb -= p_k * w] *)
Definition accumulate (prb p_k : npfloat) (w : Q) : npfloat :=
  np_sub prb (np_mul p_k (Finite w)).

Definition objective_step (m : SEIR) (params : list Q) (pred : list State)
           (conta : list Q) (ds : Table) (prb : npfloat) (i : Z) : result npfloat :=
  let h := hyper m in
  (* PART 1: cumulative positive tests *)
  p8 <- py_getitem params 8 ;;
  p9 <- py_getitem params 9 ;;
  let pa := p8 * p9 in
  c <- pred_get pred i 7 ;;
  let n := np_around (c * pa) in
  k <- nd_get ds i 7 ;;
  p_k1 <- likelihood_term (overflow h) n k (b_s_1 h) ;;
  let prb := accumulate prb p_k1 (w_1 h) in
  (* PART 2: positive tests *)
  p8 <- py_getitem params 8 ;;
  p9 <- py_getitem params 9 ;;
  let pa := p8 * p9 in
  c <- py_getitem conta i ;;
  let n := np_around (c * pa) in
  k <- nd_get ds i 1 ;;
  p_k2 <- likelihood_term (overflow h) n k (b_s_2 h) ;;
  let prb := accumulate prb p_k2 (w_2 h) in
  (* PART 3: hospitalised *)
  c <- pred_get pred i 4 ;;
  let n := np_around c in
  k <- nd_get ds i 3 ;;
  p_k3 <- likelihood_term (overflow h) n k (b_s_3 h) ;;
  let prb := accumulate prb p_k3 (w_3 h) in
  (* PART 4: cumulative hospitalised *)
  c <- pred_get pred i 8 ;;
  let n := np_around c in
  k <- nd_get ds i 4 ;;
  p_k4 <- likelihood_term (overflow h) n k (b_s_4 h) ;;
  let prb := accumulate prb p_k4 (w_4 h) in
  (* PART 5: critical *)
  c <- pred_get pred i 5 ;;
  let n := np_around c in
  k <- nd_get ds i 5 ;;
  p_k5 <- likelihood_term (overflow h) n k (b_s_5 h) ;;
  let prb := accumulate prb p_k5 (w_5 h) in
  (* PART 6: fatalities *)
  c <- pred_get pred i 6 ;;
  let n := np_around c in
  k <- nd_get ds i 6 ;;
  p_k6 <- likelihood_term (overflow h) n k (b_s_6 h) ;;
  let prb := accumulate prb p_k6 (w_6 h) in
  Ok prb.

(** [self.dataset.shape[0]] *)
Definition dataset_rows (m : SEIR) : result Z :=
  match dataset m with
  | Some ds => Ok (Z.of_nat (length ds))
  | None => Raise AttributeError
  end.

(** [objective(self, parameters, method)]; a [method] other than
    ['method_1'] falls through and returns Python's [None]. *)
Definition objective (m : SEIR) (parameters : list Q) (method : string)
  : result (option npfloat) :=
  if String.eqb method "method_1" then
    let params := parameters in
    rows <- dataset_rows m ;;
    pred <- predict m rows None (Some params) ;;
    conta <- uncumul pred ;;
    ds <- the_dataset m ;;
    prb <- for_each (py_range (length pred))
                    (objective_step m params pred conta ds) (Finite 0) ;;
    Ok (Some prb)
  else Ok None.

(** The call [fun(x, *args)] the optimizer makes on [self.objective]:
    [method] is required, [print_details] optional. *)
Definition objective_call (m : SEIR) (x : list Q) (args : list string)
  : result (option npfloat) :=
  match args with
  | [method] => objective m x method
  | [method; _] => objective m x method
  | _ => Raise TypeError
  end.

End Model.

Section Fitting.

Context {E : Externals}.

(** [self.beta = ...; ...; self.t = ...] *)
Definition set_prm (m : SEIR) (p : Params) : SEIR :=
  {| prm := p; dataframe := dataframe m; dataset := dataset m;
     init0 := init0 m; hyper := hyper m |}.

(** [self.s = v] *)
Definition set_s (m : SEIR) (v : Q) : SEIR :=
  let p := prm m in
  set_prm m {| beta := beta p; sigma := sigma p; gamma := gamma p;
               hp := hp p; hcr := hcr p; pc := pc p; pd := pd p;
               pcr := pcr p; s := v; t := t p |}.

(** [a[:, j]] *)
Fixpoint np_column (a : Table) (j : Z) : result (list Q) :=
  match a with
  | [] => Ok []
  | row :: rest =>
      v <- py_getitem row j ;;
      vs <- np_column rest j ;;
      Ok (v :: vs)
  end.

(** [lambda x: -x[i] + hi] *)
Definition upper_edge (i : Z) (hi : Q) : Constraint :=
  {| ctype := "ineq"; cfun := fun x => xi <- py_getitem x i ;; Ok (- xi + hi) |}.

(** [lambda x: x[i] - lo] *)
Definition lower_edge (i : Z) (lo : Q) : Constraint :=
  {| ctype := "ineq"; cfun := fun x => xi <- py_getitem x i ;; Ok (xi - lo) |}.

(** The call of [minimize] that [fit] makes, by the optimizer flags. *)
Definition fit_call (m : SEIR) : MinimizeCall :=
  let p := prm m in
  let h := hyper m in
  let init_prm := [beta p; sigma p; gamma p; hp p; hcr p; pc p; pd p; pcr p; s p; t p] in
  let bds := [(beta_min h, beta_max h); (sigma_min h, sigma_max h);
              (gamma_min h, gamma_max h); (hp_min h, hp_max h);
              (hcr_min h, hcr_max h); (pc_min h, pc_max h);
              (pd_min h, pd_max h); (pcr_min h, pcr_max h);
              (s_min h, s_max h); (t_min h, t_max h)] in
  let cons := [upper_edge 0 (beta_max h); upper_edge 1 (sigma_max h);
               upper_edge 2 (gamma_max h); upper_edge 3 (hp_max h);
               upper_edge 4 (hcr_max h); upper_edge 5 (pc_max h);
               upper_edge 6 (pd_max h); upper_edge 7 (pcr_max h);
               upper_edge 8 (s_max h); upper_edge 9 (t_max h);
               lower_edge 0 (beta_min h); lower_edge 1 (sigma_min h);
               lower_edge 2 (gamma_min h); lower_edge 3 (hp_min h);
               lower_edge 4 (hcr_min h); lower_edge 5 (pc_min h);
               lower_edge 6 (pd_min h); lower_edge 7 (pcr_min h);
               lower_edge 8 (s_min h); lower_edge 9 (t_min h)] in
  if LBFGSB h then
    {| mc_fun := objective_call m; mc_x0 := init_prm;
       mc_method := Some "L-BFGS-B"%string;
       mc_args := ["method_1"%string];
       mc_bounds := Some bds;
       mc_constraints := [];
       mc_eps := None |}
  else if cobyla h then
    {| mc_fun := objective_call m; mc_x0 := init_prm;
       mc_method := Some "COBYLA"%string;
       mc_args := ["method_1"%string];
       mc_bounds := None;
       mc_constraints := cons;
       mc_eps := Some (opti_step h) |}
  else
    {| mc_fun := objective_call m; mc_x0 := init_prm;
       mc_method := None;
       mc_args := [];
       mc_bounds := Some bds;
       mc_constraints := cons;
       mc_eps := Some (opti_step h) |}.

(** [fit(self)].  The fields are written only once the whole of [res.x]
    has been read; what [self] holds when an exception leaves the method
    is not tracked. *)
Definition fit (m : SEIR) : result SEIR :=
  init_state <- get_initial_state m ;;
  ds <- the_dataset m ;;
  time <- np_column ds 0 ;;
  res <- minimize (fit_call m) ;;
  let rx := OptimizeResult.x res in
  x0 <- py_getitem rx 0 ;;
  x1 <- py_getitem rx 1 ;;
  x2 <- py_getitem rx 2 ;;
  x3 <- py_getitem rx 3 ;;
  x4 <- py_getitem rx 4 ;;
  x5 <- py_getitem rx 5 ;;
  x6 <- py_getitem rx 6 ;;
  x7 <- py_getitem rx 7 ;;
  x8 <- py_getitem rx 8 ;;
  x9 <- py_getitem rx 9 ;;
  Ok (set_prm m {| beta := x0; sigma := x1; gamma := x2; hp := x3; hcr := x4;
                   pc := x5; pd := x6; pcr := x7; s := x8; t := x9 |}).

(* ---------------------------------------------------------------- *)
(** *** import_dataset *)

(** [raw[col][0] = v] *)
Definition set_first (raw : Table) (col : nat) (v : Q) : result Table :=
  match raw with
  | [] => Raise IndexError
  | row :: rest =>
      if (col <? length row)%nat
      then Ok ((firstn col row ++ v :: skipn (S col) row) :: rest)
      else Raise KeyError
  end.

(** [raw.insert(loc, name, values)] *)
Fixpoint insert_column (raw : Table) (loc : nat) (values : list Q) : result Table :=
  match raw, values with
  | [], _ => Ok []
  | row :: rest, v :: vs =>
      if (loc <=? length row)%nat
      then rest' <- insert_column rest loc vs ;;
           Ok ((firstn loc row ++ v :: skipn loc row) :: rest')
      else Raise IndexError
  | _ :: _, [] => Raise ValueError
  end.

(** [import_dataset(self)], from the frame [raw] that [pd.read_csv]
    returned; its column 1 is ['num_positive']. *)
Definition import_dataset (m : SEIR) (raw : Table) : result SEIR :=
  raw <- set_first raw 1 1 ;;
  cumul_positive <- np_column raw 1 ;;
  raw <- insert_column raw 7 cumul_positive ;;
  let dataframe := if smoothing (hyper m) then dataframe_smoothing raw else raw in
  let dataset := dataframe in
  d01 <- nd_get dataset 0 1 ;;
  let I_0 := np_div (Finite d01) (Finite (s (prm m) * t (prm m))) in
  let E_0 := np_mul I_0 (Finite 5) in
  let R_0 := Finite 0 in
  let S_0 := np_sub (np_sub (Finite 1000000) I_0) E_0 in
  let i := init0 m in
  Ok {| prm := prm m;
        dataframe := Some dataframe;
        dataset := Some dataset;
        init0 := {| I_0 := I_0; E_0 := E_0; R_0 := R_0; S_0 := S_0;
                    H_0 := H_0 i; C_0 := C_0 i; D_0 := D_0 i; CT_0 := CT_0 i |};
        hyper := hyper m |}.

(** The column [np.cumsum(values)]: what "cumulative positive cases"
    names in the specification. *)
Fixpoint cumsum_from (acc : Q) (values : list Q) : list Q :=
  match values with
  | [] => []
  | v :: vs => (acc + v) :: cumsum_from (acc + v) vs
  end.

Definition cumsum (values : list Q) : list Q := cumsum_from 0 values.

(* ---------------------------------------------------------------- *)
(** *** sensib_finder *)

(** [round(x)] *)
Definition py_round (x : Q) : Q := inject_Z (round_half_even x).

(** The observation and the two binomial parameters of time step [i]. *)
Definition sensib_knp (m : SEIR) (pred : list State) (params : list Q) (i : Z)
  : result (Q * Q * Q) :=
  p <- py_getitem params (-1) ;;
  let p := p / 2 in
  h <- pred_get pred i 4 ;;
  let n := py_round (h * 2) in
  ds <- the_dataset m ;;
  d <- nd_get ds i 1 ;;
  let k := py_round d in
  Ok (k, n, p).

(** [p_k] of a time step, floored at the literal [-1000]. *)
Definition sensib_term (k n p : Q) : npfloat :=
  let p_k := np_log (pmf k n p) in
  if (np_is_neginf p_k || np_isnan p_k)%bool then Finite (- (1000)) else p_k.

(** The inner loop: [-prb] for one grid point. *)
Definition sensib_error (m : SEIR) (pred : list State) (params : list Q)
  : result npfloat :=
  prb <- for_each (py_range (length pred))
                  (fun prb i =>
                     knp <- sensib_knp m pred params i ;;
                     let '(k, n, p) := knp in
                     Ok (np_add prb (sensib_term k n p)))
                  (Finite 0) ;;
  Ok (np_neg prb).

(** [if -prb < best[0]: best = (-prb, sensib_range[j])] *)
Definition update_best (best : npfloat * Q) (err : npfloat) (sj : Q) : npfloat * Q :=
  if np_lt err (fst best) then (err, sj) else best.

(** [best] after the errors of the grid points have been seen in order. *)
Definition best_of (results : list (npfloat * Q)) : npfloat * Q :=
  fold_left (fun best r => update_best best (fst r) (snd r)) results (PosInf, 0).

(** The state of the outer loop: [self], [accuracies], [best]. *)
Definition sweep_state : Type := (SEIR * list npfloat * (npfloat * Q))%type.

(** The prediction of a grid point: [predict] on the four-tuple
    [(beta, sigma, gamma, s)]. *)
Definition sensib_params (m : SEIR) : list Q :=
  [beta (prm m); sigma (prm m); gamma (prm m); s (prm m)].

Definition sensib_predict (m : SEIR) : result (list State) :=
  rows <- dataset_rows m ;;
  predict m rows None (Some (sensib_params m)).

Definition sensib_iteration (st : sweep_state) (sj : Q) : result sweep_state :=
  let '(m, accuracies, best) := st in
  let m := set_s m sj in
  m <- fit m ;;
  let params := sensib_params m in
  pred <- sensib_predict m ;;
  err <- sensib_error m pred params ;;
  Ok (m, accuracies ++ [err], update_best best err sj).

Definition sensib_sweep (m : SEIR) (sensib_range : list Q) : result sweep_state :=
  init_state <- get_initial_state m ;;
  for_each sensib_range sensib_iteration (m, [], (PosInf, 0)).



End Fitting.

(* ================================================================== *)
(** ** An executable stand-in for the code outside the file *)
(* ================================================================== *)

(** One instance of [Externals] on which the model runs: an explicit Euler
    integrator, the binomial law in exact arithmetic, and an optimizer that
    evaluates the objective at the starting point and gives up. *)
Module Reference.

Definition finite_part (a : npfloat) : Q :=
  match a with Finite q => q | _ => 0 end.

Definition euler_step (y : State) (h : Q) (d : Deriv) : State :=
  mkState (cS y + h * finite_part (dS d)) (cE y + h * finite_part (dE d))
          (cI y + h * finite_part (dI d)) (cR y + h * finite_part (dR d))
          (cH y + h * finite_part (dH d)) (cC y + h * finite_part (dC d))
          (cD y + h * finite_part (dD d)) (cCT y + h * finite_part (dCT d))
          (cCH y + h * finite_part (dCH d)).

Fixpoint euler_from (f : State -> Q -> result Deriv) (y : State) (u : Q)
         (ts : list Q) : result (list State) :=
  match ts with
  | [] => Ok []
  | u1 :: rest =>
      d <- f y u ;;
      let y1 := euler_step y (u1 - u) d in
      tr <- euler_from f y1 u1 rest ;;
      Ok (y1 :: tr)
  end.

Definition euler (f : State -> Q -> result Deriv) (y0 : State) (ts : list Q)
  : result (list State) :=
  match ts with
  | [] => Raise IndexError
  | t0 :: rest => tr <- euler_from f y0 t0 rest ;; Ok (y0 :: tr)
  end.

Definition is_integer (q : Q) : bool := Qeq_bool q (inject_Z (Qfloor q)).

(** [n! / (n - k)!] and [k!], multiplied out factor by factor. *)
Fixpoint falling (n : Z) (k : nat) : Z :=
  match k with
  | O => 1%Z
  | S k' => (n * falling (n - 1) k')%Z
  end.

Fixpoint factorial (k : nat) : Z :=
  match k with
  | O => 1%Z
  | S k' => (Z.of_nat k * factorial k')%Z
  end.

Definition choose (n : Z) (k : nat) : Z := (falling n k / factorial k)%Z.

Definition binomial (k n p : Q) : option Q :=
  if (negb (is_integer n) || Qltb n 0 || Qltb p 0 || Qltb 1 p)%bool then None
  else if (is_integer k && negb (Qltb k 0) && negb (Qltb n k))%bool then
    let kz := Qfloor k in
    let nz := Qfloor n in
    Some (inject_Z (choose nz (Z.to_nat kz))
          * Qpower p kz * Qpower (1 - p) (nz - kz))
  else Some 0.

(** A bound of the logarithm, enough to run the model. *)
Definition ln_bound (q : Q) : Q := q - 1.

Definition no_progress (call : MinimizeCall) : result OptimizeResult.t :=
  v <- mc_fun call (mc_x0 call) (mc_args call) ;;
  Ok {| OptimizeResult.x := mc_x0 call; OptimizeResult.success := false |}.

Definition externals : Externals :=
  {| odeint := euler;
     binom_pmf := binomial;
     ln := ln_bound;
     minimize := no_progress;
     dataframe_smoothing := fun raw => raw |}.

End Reference.

(* ================================================================== *)
(** ** Concrete inputs *)
(* ================================================================== *)

(** The initial state of the first scenario of the specification. *)
Definition scenario_state : State := mkState 999995 3 2 0 0 0 0 2 0.

(** A state with two dead among four. *)
Definition state_with_dead : State := mkState 1 0 1 0 0 0 2 0 0.

(** A row of a trajectory that only carries a value of [CT]. *)
Definition ct_row (ct : Q) : State := mkState 0 0 0 0 0 0 0 ct 0.

(** Three days with cumulative infections 2, 5, 9. *)
Definition three_days : list State := [ct_row 2; ct_row 5; ct_row 9].

(** A frame of three days as [pd.read_csv] gives it: day, positive tests,
    tests, hospitalised, cumulative hospitalised, critical, fatalities. *)
Definition raw_three_days : Table :=
  [[0; 0; 10; 1; 1; 0; 0];
   [1; 2; 10; 2; 3; 0; 0];
   [2; 3; 10; 4; 7; 1; 0]].

(** The dataset of one day on which positive tests and hospitalised differ. *)
Definition model_one_day : SEIR :=
  {| prm := prm SEIR_init; dataframe := None;
     dataset := Some [[0; 5; 10; 9; 9; 0; 0; 5]];
     init0 := init0 SEIR_init; hyper := hyper SEIR_init |}.

Definition model_three_days : SEIR :=
  {| prm := prm SEIR_init; dataframe := None;
     dataset := Some [[0; 1; 10; 1; 1; 0; 0; 1];
                      [1; 2; 10; 2; 3; 0; 0; 2];
                      [2; 3; 10; 4; 7; 1; 0; 3]];
     init0 := init0 SEIR_init; hyper := hyper SEIR_init |}.

(* ================================================================== *)
(** ** Predicates of the statements *)
(* ================================================================== *)

(** The law answered nan, or a probability that is not positive. *)
Definition pmf_not_positive (o : option Q) : Prop :=
  match o with
  | Some q => q <= 0
  | None => True
  end.

(** The row that [pred[i - 1]] reads among [n] rows: the last one when [i]
    is 0. *)
Definition previous_row (n i : nat) : nat :=
  match i with
  | O => (n - 1)%nat
  | S j => j
  end.



Section SweepError.

Context {E : Externals}.


End SweepError.

(* ================================================================== *)
(** ** The script under [__main__] *)
(* ================================================================== *)

Section Script.

Context {E : Externals}.

(** [prd[i][3] = prd[i][3] * model.s * model.t] on one row. *)
Definition scale_recovered (sv tv : Q) (row : State) : State :=
  mkState (cS row) (cE row) (cI row) (cR row * sv * tv) (cH row) (cC row)
          (cD row) (cCT row) (cCH row).

(** The script, from the frame that [pd.read_csv] returned to the fitted
    model and the prediction it plots.  Printing and plotting leave no
    trace but the subscripts they evaluate. *)
Definition main (raw : Table) : result (SEIR * list State) :=
  let model := SEIR_init in
  model <- import_dataset model raw ;;
  model <- fit model ;;
  let params := get_parameters model in
  rows <- dataset_rows model ;;
  prd <- predict model rows None None ;;
  let prd := map (scale_recovered (s (prm model)) (t (prm model))) prd in
  ds <- the_dataset model ;;
  _ <- for_each (py_range 10)
                (fun (_ : unit) i => _ <- nd_get ds i 7 ;; _ <- pred_get prd i 7 ;; Ok tt) tt ;;
  _ <- for_each (py_range 10)
                (fun (_ : unit) i => _ <- nd_get ds i 3 ;; _ <- pred_get prd i 4 ;; Ok tt) tt ;;
  _ <- np_column ds 0 ;;
  _ <- np_column ds 7 ;;
  _ <- np_column ds 3 ;;
  _ <- np_column ds 5 ;;
  _ <- np_column ds 6 ;;
  _ <- for_each (py_range (length ds))
                (fun (_ : unit) i => _ <- pred_get prd i 5 ;; _ <- pred_get prd i 6 ;; Ok tt) tt ;;
  Ok (model, prd).

End Script.

(* ================================================================== *)
(** ** More stand-ins and inputs *)
(* ================================================================== *)

Module ReferenceVariants.

(** An optimizer that answers with a vector of three components. *)
Definition short_answer (call : MinimizeCall) : result OptimizeResult.t :=
  Ok {| OptimizeResult.x := firstn 3 (mc_x0 call); OptimizeResult.success := true |}.

Definition externals_short : Externals :=
  {| odeint := Reference.euler;
     binom_pmf := Reference.binomial;
     ln := Reference.ln_bound;
     minimize := short_answer;
     dataframe_smoothing := fun raw => raw |}.

(** The Euler integrator with every fraction of a row reduced. *)
Definition reduce (y : State) : State :=
  mkState (Qred (cS y)) (Qred (cE y)) (Qred (cI y)) (Qred (cR y)) (Qred (cH y))
          (Qred (cC y)) (Qred (cD y)) (Qred (cCT y)) (Qred (cCH y)).

Fixpoint euler_reduced_from (f : State -> Q -> result Deriv) (y : State) (u : Q)
         (ts : list Q) : result (list State) :=
  match ts with
  | [] => Ok []
  | u1 :: rest =>
      d <- f y u ;;
      let y1 := reduce (Reference.euler_step y (u1 - u) d) in
      tr <- euler_reduced_from f y1 u1 rest ;;
      Ok (y1 :: tr)
  end.

Definition euler_reduced (f : State -> Q -> result Deriv) (y0 : State) (ts : list Q)
  : result (list State) :=
  match ts with
  | [] => Raise IndexError
  | t0 :: rest => tr <- euler_reduced_from f y0 t0 rest ;; Ok (y0 :: tr)
  end.

Definition externals_reduced : Externals :=
  {| odeint := euler_reduced;
     binom_pmf := Reference.binomial;
     ln := Reference.ln_bound;
     minimize := Reference.no_progress;
     dataframe_smoothing := fun raw => raw |}.

End ReferenceVariants.

(** The model of three days with neither [LBFGSB] nor [cobyla] set. *)
Definition model_auto : SEIR :=
  {| prm := prm SEIR_init; dataframe := None;
     dataset := dataset model_three_days;
     init0 := init0 SEIR_init;
     hyper := let h := hyper SEIR_init in
              mkHyper (w_1 h) (w_2 h) (w_3 h) (w_4 h) (w_5 h) (w_6 h)
                      (overflow h) (smoothing h)
                      (b_s_1 h) (b_s_2 h) (b_s_3 h) (b_s_4 h) (b_s_5 h) (b_s_6 h)
                      (opti_step h)
                      (beta_min h) (beta_max h) (sigma_min h) (sigma_max h)
                      (gamma_min h) (gamma_max h) (hp_min h) (hp_max h)
                      (hcr_min h) (hcr_max h) (pc_min h) (pc_max h)
                      (pd_min h) (pd_max h) (pcr_min h) (pcr_max h)
                      (s_min h) (s_max h) (t_min h) (t_max h)
                      false false true |}.

(** The model of three days with the first smoother set to zero. *)
Definition model_zero_smoother : SEIR :=
  {| prm := prm SEIR_init; dataframe := None;
     dataset := dataset model_three_days;
     init0 := init0 SEIR_init;
     hyper := let h := hyper SEIR_init in
              mkHyper (w_1 h) (w_2 h) (w_3 h) (w_4 h) (w_5 h) (w_6 h)
                      (overflow h) (smoothing h)
                      0 (b_s_2 h) (b_s_3 h) (b_s_4 h) (b_s_5 h) (b_s_6 h)
                      (opti_step h)
                      (beta_min h) (beta_max h) (sigma_min h) (sigma_max h)
                      (gamma_min h) (gamma_max h) (hp_min h) (hp_max h)
                      (hcr_min h) (hcr_max h) (pc_min h) (pc_max h)
                      (pd_min h) (pd_max h) (pcr_min h) (pcr_max h)
                      (s_min h) (s_max h) (t_min h) (t_max h)
                      (cobyla h) (LBFGSB h) (auto h) |}.

(** A frame of ten days. *)
Definition raw_ten_days : Table :=
  [[0; 0; 10; 1; 1; 0; 0];
   [1; 2; 10; 2; 3; 0; 0];
   [2; 3; 10; 4; 7; 1; 0];
   [3; 3; 12; 5; 9; 1; 0];
   [4; 4; 12; 5; 11; 1; 1];
   [5; 6; 15; 6; 14; 2; 1];
   [6; 7; 15; 8; 18; 2; 1];
   [7; 9; 20; 9; 22; 2; 1];
   [8; 9; 20; 11; 27; 3; 2];
   [9; 12; 25; 12; 31; 3; 2]].

(* ================================================================== *)
(** ** More predicates of the statements *)
(* ================================================================== *)

(** Whether a call returned. *)
Definition returns {A : Type} (r : result A) : bool :=
  match r with
  | Ok _ => true
  | Raise _ => false
  end.

(** Every row of a table has at least [k] columns. *)
Definition rows_have (k : nat) (a : Table) : Prop :=
  Forall (fun row => (k <= length row)%nat) a.

(** Every constraint function returns a value that is not negative. *)
Definition feasible (cs : list Constraint) (x : list Q) : Prop :=
  Forall (fun c => exists v, cfun c x = Ok v /\ 0 <= v) cs.

(** The ten components lie between the bounds of the model. *)
Definition within_bounds (h : Hyper) (x0 x1 x2 x3 x4 x5 x6 x7 x8 x9 : Q) : Prop :=
  (beta_min h <= x0 /\ x0 <= beta_max h)
  /\ (sigma_min h <= x1 /\ x1 <= sigma_max h)
  /\ (gamma_min h <= x2 /\ x2 <= gamma_max h)
  /\ (hp_min h <= x3 /\ x3 <= hp_max h)
  /\ (hcr_min h <= x4 /\ x4 <= hcr_max h)
  /\ (pc_min h <= x5 /\ x5 <= pc_max h)
  /\ (pd_min h <= x6 /\ x6 <= pd_max h)
  /\ (pcr_min h <= x7 /\ x7 <= pcr_max h)
  /\ (s_min h <= x8 /\ x8 <= s_max h)
  /\ (t_min h <= x9 /\ x9 <= t_max h).

(** The rows of two trajectories agree in every column but [R]. *)
Definition same_but_recovered (a b : State) : Prop :=
  cS a = cS b /\ cE a = cE b /\ cI a = cI b /\ cH a = cH b /\ cC a = cC b
  /\ cD a = cD b /\ cCT a = cCT b /\ cCH a = cCH b.

(* ================================================================== *)
(** ** The right-hand side in binary64 *)
(* ================================================================== *)

Module Binary64.

Import PrimFloat.
Set Warnings "-inexact-float".
Local Open Scope float_scope.

(** The state vector and the derivative as the doubles the integrator
    hands over and gets back. *)
Record State64 : Type := mkState64 {
  fS : float; fE : float; fI : float; fR : float; fH : float; fC : float;
  fD : float; fCT : float; fCH : float
}.

Record Deriv64 : Type := mkDeriv64 {
  gS : float; gE : float; gI : float; gR : float; gH : float; gC : float;
  gD : float; gCT : float; gCH : float
}.

(** [differential] with every operation rounded as the processor rounds
    it, in the order in which Python evaluates the expressions. *)
Definition differential64 (state : State64) (time : float) (args : list float)
  : result Deriv64 :=
  match args with
  | [beta; sigma; gamma; hp; hcr; pc; pd; pcr; s; t] =>
      let S := fS state in let E := fE state in let I := fI state in
      let R := fR state in let H := fH state in let C := fC state in
      let D := fD state in let CT := fCT state in let CH := fCH state in
      let dS := - (beta * S * I) / (S + I + E + R + H + C + D) in
      let dE := ((beta * S * I) / (S + I + E + R + H + C + D)) - (sigma * E) in
      let dI := (sigma * E) - (gamma * I) - (hp * I) in
      let dH := (hp * I) - (hcr * H) - (pc * H) in
      let dC := (pc * H) - (pd * C) - (pcr * C) in
      let dD := (pd * C) in
      let dR := (gamma * I) + (hcr * H) + (pcr * C) in
      let dCT := sigma * E in
      let dCH := hp * I in
      Ok (mkDeriv64 dS dE dI dR dH dC dD dCT dCH)
  | _ => Raise TypeError
  end.

(** [dS + dE + dI + dR + dH + dC + dD] in binary64. *)
Definition compartment_sum64 (d : Deriv64) : float :=
  gS d + gE d + gI d + gR d + gH d + gC d + gD d.

(** The state of the first scenario and the parameters of [__init__]. *)
Definition scenario_state64 : State64 := mkState64 999995 3 2 0 0 0 0 2 0.

Definition parameters64 : list float :=
  [0.3; 0.8; 0.15; 0.05; 0.2; 0.1; 0.1; 0.3; 0.765; 0.75].

End Binary64.

(* ================================================================== *)
(** ** The sweep on short datasets, and an optimizer that moves *)
(* ================================================================== *)


Section SweepException.

Context {E : Externals}.


End SweepException.

Module MovingOptimizer.

(** An optimizer that evaluates the objective at the starting point, moves
    every component by one step [eps] and reports that it did not
    converge. *)
Definition one_step (call : MinimizeCall) : result OptimizeResult.t :=
  v <- mc_fun call (mc_x0 call) (mc_args call) ;;
  let eps := match mc_eps call with Some e => e | None => 1 # 100 end in
  Ok {| OptimizeResult.x := map (fun c => Qred (c + eps)) (mc_x0 call);
        OptimizeResult.success := false |}.

Definition externals : Externals :=
  {| odeint := Reference.euler;
     binom_pmf := Reference.binomial;
     ln := Reference.ln_bound;
     minimize := one_step;
     dataframe_smoothing := fun raw => raw |}.

End MovingOptimizer.


(** The number is an integer. *)
Definition integral (q : Q) : Prop := exists z : Z, q == inject_Z z.

(* ================================================================== *)
(** ** Comparisons and arithmetic of floats *)
(* ================================================================== *)

Lemma Qltb_true (a b : Q) : Qltb a b = true <-> a < b.
Proof.
  unfold Qltb. rewrite Qlt_alt.
  destruct (a ?= b); split; intro H; congruence.
Qed.

Lemma Qltb_false (a b : Q) : Qltb a b = false <-> b <= a.
Proof.
  split; intro H.
  - apply Qnot_lt_le. intro L. apply Qltb_true in L. congruence.
  - destruct (Qltb a b) eqn:L; trivial.
    apply Qltb_true in L. exfalso. apply (Qlt_not_le _ _ L H).
Qed.

Lemma Qsign_Eq (a : Q) : Qsign a = Eq <-> a == 0.
Proof. unfold Qsign. symmetry. apply Qeq_alt. Qed.

(** Every test [Qltb a b] of the goal becomes an order fact. *)
Ltac case_Qltb :=
  repeat match goal with
         | |- context [Qltb ?a ?b] =>
             let L := fresh "L" in
             destruct (Qltb a b) eqn:L;
             [apply Qltb_true in L | apply Qltb_false in L];
             cbn [andb orb negb fst snd]; cbv beta iota
         end.

Lemma np_div_finite (a b : Q) :
  ~ b == 0 -> np_div (Finite a) (Finite b) = Finite (a / b).
Proof.
  intro Hb. cbn. destruct (Qsign b) eqn:Sb; trivial.
  apply Qsign_Eq in Sb. contradiction.
Qed.

Lemma np_eq_refl (a : npfloat) : np_eq a a.
Proof. destruct a; cbn; trivial. reflexivity. Qed.

(* ================================================================== *)
(** ** The right-hand side of the system *)
(* ================================================================== *)

(** With ten parameters [differential] returns, on every state. *)
Lemma differential_returns (st : State) (u : Q) (b sg g h hc c d cr sv tv : Q) :
  exists dv, differential st u [b; sg; g; h; hc; c; d; cr; sv; tv] = Ok dv.
Proof. eexists. reflexivity. Qed.

(** C1, the statement of the specification, refuted: on a state with two
    dead among four and the default parameters, [dS] is [-beta*S*I] over
    four, not over the two of [S + I + E + R + H + C]. *)
Lemma differential_dS_counts_the_dead :
  exists dv,
    differential state_with_dead 0 (get_parameters SEIR_init) = Ok dv
    /\ np_eq (dS dv) (Finite (- ((3 # 10) * 1 * 1) / 4))
    /\ ~ np_eq (dS dv)
         (Finite (- (beta (prm SEIR_init) * cS state_with_dead * cI state_with_dead)
                  / spec_mixing_population state_with_dead)).
Proof.
  eexists. split; [reflexivity | split].
  - vm_compute. reflexivity.
  - vm_compute. discriminate.
Qed.

(** C1, amended: for every state whose mixing population
    [S + I + E + R + H + C + D], the dead included, is not zero, and every
    ten parameters, [dS] is [-(beta*S*I)] divided by that population and
    [dE] is [beta*S*I] over the same denominator minus [sigma*E]. *)
Theorem differential_force_of_infection
        (st : State) (u : Q) (b sg g h hc c d cr sv tv : Q) :
  ~ mixing_population st == 0 ->
  exists dv,
    differential st u [b; sg; g; h; hc; c; d; cr; sv; tv] = Ok dv
    /\ dS dv = Finite (- (b * cS st * cI st) / mixing_population st)
    /\ dE dv = Finite ((b * cS st * cI st) / mixing_population st + - (sg * cE st)).
Proof.
  intro HN. eexists. split; [reflexivity |].
  unfold mixing_population in *.
  cbn [dS dE np_neg].
  rewrite !np_div_finite by exact HN.
  split; reflexivity.
Qed.

(** C1 amended, on the state of the first scenario. *)
Lemma differential_force_of_infection_witness :
  ~ mixing_population scenario_state == 0
  /\ exists dv,
      differential scenario_state 0
                   [3 # 10; 8 # 10; 15 # 100; 5 # 100; 2 # 10;
                    1 # 10; 1 # 10; 3 # 10; 765 # 1000; 75 # 100] = Ok dv
      /\ dS dv = Finite (- ((3 # 10) * cS scenario_state * cI scenario_state)
                         / mixing_population scenario_state)
      /\ dE dv = Finite (((3 # 10) * cS scenario_state * cI scenario_state)
                         / mixing_population scenario_state
                         + - ((8 # 10) * cE scenario_state)).
Proof.
  assert (HN : ~ mixing_population scenario_state == 0)
    by (intro H; vm_compute in H; discriminate H).
  split; [exact HN |].
  exact (@differential_force_of_infection scenario_state 0
           (3 # 10) (8 # 10) (15 # 100) (5 # 100) (2 # 10)
           (1 # 10) (1 # 10) (3 # 10) (765 # 1000) (75 # 100) HN).
Defined.

(** C5, amended: for every state whose mixing population is not zero and
    every ten parameters, the seven compartment components of the
    derivative sum to zero in exact arithmetic. *)
Theorem differential_conserves_population
        (st : State) (u : Q) (b sg g h hc c d cr sv tv : Q) :
  ~ mixing_population st == 0 ->
  exists dv,
    differential st u [b; sg; g; h; hc; c; d; cr; sv; tv] = Ok dv
    /\ np_eq (compartment_sum dv) (Finite 0).
Proof.
  intro HN. eexists. split; [reflexivity |].
  unfold mixing_population in HN.
  unfold compartment_sum.
  cbn [dS dE dI dR dH dC dD np_neg].
  rewrite !np_div_finite by exact HN.
  cbn [np_sub np_add np_neg np_eq].
  field. exact HN.
Qed.


(** C5 on the state of the first scenario and the default parameters. *)
Lemma differential_conserves_population_witness :
  ~ mixing_population scenario_state == 0
  /\ exists dv,
      differential scenario_state 0
                   [3 # 10; 8 # 10; 15 # 100; 5 # 100; 2 # 10;
                    1 # 10; 1 # 10; 3 # 10; 765 # 1000; 75 # 100] = Ok dv
      /\ np_eq (compartment_sum dv) (Finite 0).
Proof.
  assert (HN : ~ mixing_population scenario_state == 0)
    by (intro H; vm_compute in H; discriminate H).
  split; [exact HN |].
  exact (@differential_conserves_population scenario_state 0
           (3 # 10) (8 # 10) (15 # 100) (5 # 100) (2 # 10)
           (1 # 10) (1 # 10) (3 # 10) (765 # 1000) (75 # 100) HN).
Defined.

(** Where the mixing population is zero the two quotients are not
    numbers: on the empty population the sum is nan. *)
Lemma differential_empty_population :
  exists dv,
    differential (mkState 0 0 0 0 0 0 0 0 0) 0 (get_parameters SEIR_init) = Ok dv
    /\ dS dv = NaN
    /\ compartment_sum dv = NaN.
Proof.
  eexists. repeat split.
Qed.

(** C5, the statement of the specification, refuted on two counts: on the
    empty population the sum of the seven components is nan, not zero; and
    in binary64, on the state of the first scenario with the parameters of
    [__init__], the seven doubles that the code returns do not add up to
    zero. *)
Lemma conservation_fails_as_stated :
  (exists dv,
      differential (mkState 0 0 0 0 0 0 0 0 0) 0 (get_parameters SEIR_init) = Ok dv
      /\ compartment_sum dv = NaN
      /\ ~ np_eq (compartment_sum dv) (Finite 0))
  /\ (exists dv,
         Binary64.differential64 Binary64.scenario_state64 PrimFloat.zero
                                 Binary64.parameters64 = Ok dv
         /\ PrimFloat.eqb (Binary64.compartment_sum64 dv) PrimFloat.zero = false).
Proof.
  split.
  - eexists. split; [reflexivity |]. split; [reflexivity |]. cbn. exact (fun H => H).
  - eexists. split; [reflexivity |]. vm_compute. reflexivity.
Qed.

(* ================================================================== *)
(** ** The likelihood terms of [objective] *)
(* ================================================================== *)

(** What [normalize] returns: an ordered pair with a non-negative first
    component. *)
Lemma normalize_ordered (k n : Q) :
  0 <= fst (normalize k n) /\ fst (normalize k n) <= snd (normalize k n).
Proof.
  unfold normalize. case_Qltb; cbn [fst snd]; lra.
Qed.

(** An ordered pair with a non-negative first component is left as it is. *)
Lemma normalize_fixed (k n : Q) :
  0 <= k -> k <= n -> normalize k n = (k, n).
Proof.
  intros Hk Hkn. unfold normalize.
  case_Qltb; try reflexivity; exfalso; lra.
Qed.

(** C6: for every pair [(k, n)], normalising the normalised pair gives it
    back: the normalisation applied twice is the normalisation applied
    once. *)
Theorem normalize_idempotent (k n : Q) :
  normalize (fst (normalize k n)) (snd (normalize k n)) = normalize k n.
Proof.
  destruct (normalize_ordered k n) as [H0 H1].
  rewrite (normalize_fixed H0 H1).
  symmetry. apply surjective_pairing.
Qed.

Lemma bind_Ok {A B : Type} (c : result A) (k : A -> result B) (b : B) :
  bind c k = Ok b -> exists a, c = Ok a /\ k a = Ok b.
Proof.
  destruct c as [a | e]; cbn; intro H; [eauto | discriminate].
Qed.

(** Inversion of a successful sequence of calls. *)
Ltac bind_inv H :=
  let a := fresh "a" in
  let Ha := fresh "Ha" in
  apply bind_Ok in H; destruct H as (a & Ha & H).

Tactic Notation "bind_inv_as" hyp(H) ident(a) ident(Ha) :=
  apply bind_Ok in H; destruct H as (a & Ha & H).

Lemma for_each_invariant {A S : Type} (P : S -> Prop)
      (xs : list A) (body : S -> A -> result S) :
  (forall acc x acc', P acc -> body acc x = Ok acc' -> P acc') ->
  forall acc acc', P acc -> for_each xs body acc = Ok acc' -> P acc'.
Proof.
  intro Hbody. induction xs as [| x rest IH]; cbn; intros acc acc' HP H.
  - inversion H; subst; exact HP.
  - bind_inv H. eauto.
Qed.

Lemma py_div_Ok (a b : Q) : ~ b == 0 -> py_div a b = Ok (a / b).
Proof.
  intro Hb. unfold py_div. destruct (b ?= 0) eqn:Sb; trivial.
  apply Qeq_alt in Sb. contradiction.
Qed.

Lemma py_div_inv (a b q : Q) : py_div a b = Ok q -> ~ b == 0 /\ q = a / b.
Proof.
  unfold py_div. destruct (b ?= 0) eqn:Sb; intro H; inversion H; subst;
    split; trivial; intro Hb; apply Qeq_alt in Hb; congruence.
Qed.

Section Likelihood.

Context {E : Externals}.

(** The two values a likelihood term can take. *)
Lemma likelihood_term_value (ov n k b_s : Q) (v : npfloat) :
  likelihood_term ov n k b_s = Ok v ->
  let o := binom_pmf (fst (normalize k n)) (snd (normalize k n) * b_s) (1 / b_s) in
  (exists q, 0 < q /\ o = Some q /\ v = Finite (ln q))
  \/ (pmf_not_positive o /\ v = Finite ov).
Proof.
  unfold likelihood_term. intro H. bind_inv H.
  apply py_div_inv in Ha. destruct Ha as [_ ->].
  destruct (normalize k n) as [k' n']. cbn [fst snd]. cbv zeta.
  unfold pmf in H.
  destruct (binom_pmf k' (n' * b_s) (1 / b_s)) as [q |]; cbn in H.
  - unfold np_gt0, np_lt in H. destruct (Qltb 0 q) eqn:L.
    + apply Qltb_true in L. left. exists q. repeat split; trivial.
      unfold np_log in H.
      assert (Sq : Qsign q = Gt) by (apply Qgt_alt; exact L).
      rewrite Sq in H. inversion H; reflexivity.
    + apply Qltb_false in L. right. split; [exact L | inversion H; reflexivity].
  - right. split; [exact Logic.I | inversion H; reflexivity].
Qed.

Lemma likelihood_term_finite (ov n k b_s : Q) (v : npfloat) :
  likelihood_term ov n k b_s = Ok v -> is_finite v.
Proof.
  intro H. apply likelihood_term_value in H.
  destruct H as [(q & _ & _ & ->) | (_ & ->)]; exact Logic.I.
Qed.

Lemma accumulate_finite (prb v : npfloat) (w : Q) :
  is_finite prb -> is_finite v -> is_finite (accumulate prb v w).
Proof.
  destruct prb, v; cbn; trivial; contradiction.
Qed.

(** Every one of the six terms of a time step leaves [prb] finite. *)
Lemma objective_step_finite (m : SEIR) (params : list Q) (pred : list State)
      (conta : list Q) (ds : Table) (prb prb' : npfloat) (i : Z) :
  is_finite prb ->
  objective_step m params pred conta ds prb i = Ok prb' ->
  is_finite prb'.
Proof.
  intros Hp H. unfold objective_step in H.
  repeat (bind_inv H;
          try match goal with
              | T : likelihood_term _ _ _ _ = Ok _ |- _ =>
                  apply likelihood_term_finite in T
              end).
  inversion H; subst.
  repeat apply accumulate_finite; assumption.
Qed.

(** The value of [objective] is a finite float. *)
Lemma objective_finite (m : SEIR) (parameters : list Q) (prb : npfloat) :
  objective m parameters "method_1" = Ok (Some prb) -> is_finite prb.
Proof.
  unfold objective. cbn [String.eqb Ascii.eqb Bool.eqb]. intro H.
  repeat bind_inv H. inversion H; subst.
  eapply for_each_invariant; [| | eassumption]; [| exact Logic.I].
  intros acc x acc' Hacc Hb. eapply objective_step_finite; eassumption.
Qed.

(** C2: a likelihood term whose binomial probability, taken at the
    normalised [(k, n, p)], is zero, negative or nan has the overflow
    floor as its value; the value of a term is always a finite float, and
    so is [prb] after the term has been subtracted with its weight.  The
    floor set by [__init__] is [-1000]. *)
Theorem likelihood_term_floor (m : SEIR) (n k b_s : Q) :
  ~ b_s == 0 ->
  exists v,
    likelihood_term (overflow (hyper m)) n k b_s = Ok v
    /\ (pmf_not_positive
          (binom_pmf (fst (normalize k n)) (snd (normalize k n) * b_s) (1 / b_s)) ->
        v = Finite (overflow (hyper m)))
    /\ is_finite v
    /\ (forall prb w, is_finite prb -> is_finite (accumulate prb v w))
    /\ overflow (hyper SEIR_init) = - (1000).
Proof.
  intro Hb.
  assert (R : exists v, likelihood_term (overflow (hyper m)) n k b_s = Ok v).
  { unfold likelihood_term. rewrite (py_div_Ok 1 Hb). cbn [bind].
    destruct (normalize k n). eexists; reflexivity. }
  destruct R as [v Hv]. exists v. split; [exact Hv |].
  pose proof (likelihood_term_value _ _ _ _ Hv) as C. cbv zeta in C.
  pose proof (likelihood_term_finite _ _ _ _ Hv) as F.
  repeat split; trivial.
  - intro Hnp. destruct C as [(q & Hq & Ho & _) | (_ & Hov)]; [| exact Hov].
    rewrite Ho in Hnp. cbn in Hnp. exfalso. lra.
  - intros prb w Hprb. apply accumulate_finite; assumption.
Qed.

End Likelihood.


(** C2 on the exact binomial law: half a success among three trials has
    probability zero, and the term is the floor of [__init__]. *)
Lemma likelihood_term_floor_witness :
  ~ 6 == 0
  /\ exists v,
      likelihood_term (E := Reference.externals) (overflow (hyper SEIR_init)) 3 (1 # 2) 6 = Ok v
      /\ (pmf_not_positive
            (binom_pmf (Externals := Reference.externals)
                       (fst (normalize (1 # 2) 3)) (snd (normalize (1 # 2) 3) * 6) (1 / 6)) ->
          v = Finite (overflow (hyper SEIR_init)))
      /\ is_finite v
      /\ (forall prb w, is_finite prb -> is_finite (accumulate prb v w))
      /\ overflow (hyper SEIR_init) = - (1000).
Proof.
  assert (Hb : ~ 6 == 0) by (intro H; vm_compute in H; discriminate H).
  split; [exact Hb |].
  exact (@likelihood_term_floor Reference.externals SEIR_init 3 (1 # 2) 6 Hb).
Defined.

(** On that input the hypothesis of the floor holds. *)
Lemma half_a_success_has_no_probability :
  pmf_not_positive
    (binom_pmf (Externals := Reference.externals)
               (fst (normalize (1 # 2) 3)) (snd (normalize (1 # 2) 3) * 6) (1 / 6))
  /\ likelihood_term (E := Reference.externals) (overflow (hyper SEIR_init)) 3 (1 # 2) 6
     = Ok (Finite (- (1000))).
Proof.
  split; [vm_compute; discriminate | reflexivity].
Qed.

(* ================================================================== *)
(** ** The incidence series and the imported dataset *)
(* ================================================================== *)

(** C3, on three days with cumulative infections 2, 5, 9: [conta] has four
    entries, [2, 2 - 9, 5 - 2, 9 - 5]; the entry read at time step 1 is
    [CT[0] - CT[2]], the difference with the last row, and not
    [CT[1] - CT[0]]; the entry read at time step 2 is [CT[1] - CT[0]]. *)
Theorem uncumul_three_days :
  uncumul three_days = Ok [2; 2 - 9; 5 - 2; 9 - 5]
  /\ py_getitem [2; 2 - 9; 5 - 2; 9 - 5] 0 = Ok 2
  /\ py_getitem [2; 2 - 9; 5 - 2; 9 - 5] 1 = Ok (2 - 9)
  /\ py_getitem [2; 2 - 9; 5 - 2; 9 - 5] 2 = Ok (5 - 2)
  /\ ~ 2 - 9 == 5 - 2.
Proof.
  repeat split; try reflexivity. intro H. discriminate H.
Qed.

(** C4, on a frame of three days with 0, 2 and 3 positive tests: column 7
    of the dataset is column 1 with its first row set to 1, that is
    [1, 2, 3], where the cumulative sum is [1, 3, 6]. *)
Theorem import_dataset_three_days (E : Externals) :
  exists m ds,
    import_dataset SEIR_init raw_three_days = Ok m
    /\ dataset m = Some ds
    /\ np_column ds 1 = Ok [1; 2; 3]
    /\ np_column ds 7 = Ok [1; 2; 3]
    /\ cumsum [1; 2; 3] = [0 + 1; 0 + 1 + 2; 0 + 1 + 2 + 3].
Proof.
  eexists. eexists. repeat split; reflexivity.
Qed.

(* ================================================================== *)
(** ** predict *)
(* ================================================================== *)

Lemma np_arange_length (duration : Z) :
  length (np_arange duration) = Z.to_nat duration.
Proof.
  unfold np_arange. rewrite length_map, length_seq. reflexivity.
Qed.

Lemma np_arange_cons (duration : Z) :
  (0 < duration)%Z ->
  exists rest, np_arange duration = inject_Z 0 :: rest.
Proof.
  intro Hd. unfold np_arange.
  destruct (Z.to_nat duration) as [| k] eqn:Hk; [lia |].
  cbn. eexists. reflexivity.
Qed.

Lemma np_arange_cons2 (duration : Z) :
  (1 < duration)%Z ->
  exists rest, np_arange duration = inject_Z 0 :: inject_Z 1 :: rest.
Proof.
  intro Hd. unfold np_arange.
  destruct (Z.to_nat duration) as [| [| k]] eqn:Hk; [lia | lia |].
  cbn. eexists. reflexivity.
Qed.

Module ReferenceFacts.

Import Reference.

Lemma euler_from_length f y u ts tr :
  euler_from f y u ts = Ok tr -> length tr = length ts.
Proof.
  revert y u tr. induction ts as [| u1 rest IH]; cbn; intros y u tr H.
  - inversion H; reflexivity.
  - repeat bind_inv H. inversion H; subst. cbn. f_equal. eauto.
Qed.

Lemma euler_from_returns f :
  (forall y u, exists d, f y u = Ok d) ->
  forall ts y u, exists tr, euler_from f y u ts = Ok tr.
Proof.
  intros Hf ts. induction ts as [| u1 rest IH]; cbn; intros y u.
  - eexists; reflexivity.
  - destruct (Hf y u) as [d ->]. cbn.
    destruct (IH (euler_step y (u1 - u) d) u1) as [tr ->]. cbn.
    eexists; reflexivity.
Qed.

(** The Euler integrator honours the contract asked of [odeint]. *)
Lemma euler_contract : odeint_contract externals.
Proof.
  constructor; cbn.
  - intros f y0 [| t0 ts] tr H; cbn in H; [discriminate |].
    bind_inv H. inversion H; subst. cbn. f_equal.
    eapply euler_from_length; eassumption.
  - intros f y0 t0 ts tr H. cbn in H. bind_inv H. inversion H; reflexivity.
  - intros f y0 t0 t1 ts e H. cbn. rewrite H. reflexivity.
  - intros f y0 t0 ts Hf. cbn.
    destruct (euler_from_returns f Hf ts y0 t0) as [tr ->]. cbn.
    eexists; reflexivity.
Qed.

End ReferenceFacts.

Section Predict.

Context {E : Externals} (contract : odeint_contract E).

(** C7: for every duration [d > 0], initial state and ten parameters,
    [predict] returns a trajectory of exactly [d] rows whose row 0 is the
    initial state; so it does for one day from the state
    [(999995, 3, 2, 0, 0, 0, 0, 2, 0)] with the default parameters. *)
Theorem predict_rows_and_first_row
        (m : SEIR) (duration : Z) (init : State) (b sg g h hc c d cr sv tv : Q) :
  (0 < duration)%Z ->
  (exists tr,
      predict m duration (Some init) (Some [b; sg; g; h; hc; c; d; cr; sv; tv]) = Ok tr
      /\ length tr = Z.to_nat duration
      /\ nth_error tr 0 = Some init)
  /\ (exists tr,
         predict SEIR_init 1 (Some scenario_state) None = Ok tr
         /\ length tr = 1%nat
         /\ nth_error tr 0 = Some scenario_state).
Proof.
  intro Hd.
  assert (G : forall (dur : Z) (y0 : State) (p0 p1 p2 p3 p4 p5 p6 p7 p8 p9 : Q),
             (0 < dur)%Z ->
             exists tr,
               odeint (fun y u => differential y u [p0; p1; p2; p3; p4; p5; p6; p7; p8; p9])
                      y0 (np_arange dur) = Ok tr
               /\ length tr = Z.to_nat dur
               /\ nth_error tr 0 = Some y0).
  { intros dur y0 p0 p1 p2 p3 p4 p5 p6 p7 p8 p9 Hdur.
    destruct (np_arange_cons Hdur) as [rest Hts].
    destruct (odeint_returns contract
                (fun y u => differential y u [p0; p1; p2; p3; p4; p5; p6; p7; p8; p9])
                y0 (inject_Z 0) rest) as [tr Htr].
    { intros y u. apply differential_returns. }
    exists tr. rewrite Hts. split; [exact Htr |]. split.
    - rewrite (odeint_rows contract _ _ _ Htr), <- Hts. apply np_arange_length.
    - eapply odeint_row0; eassumption. }
  split.
  - unfold predict. cbn [bind]. apply G. exact Hd.
  - unfold predict. cbn [bind]. apply (G 1%Z). lia.
Qed.

End Predict.

(** C7 on the Euler integrator: three days from the scenario state. *)
Lemma predict_rows_and_first_row_witness :
  (0 < 3)%Z
  /\ ((exists tr,
          predict (E := Reference.externals) SEIR_init 3 (Some scenario_state)
                  (Some [3 # 10; 8 # 10; 15 # 100; 5 # 100; 2 # 10;
                         1 # 10; 1 # 10; 3 # 10; 765 # 1000; 75 # 100]) = Ok tr
          /\ length tr = Z.to_nat 3
          /\ nth_error tr 0 = Some scenario_state)
      /\ (exists tr,
             predict (E := Reference.externals) SEIR_init 1 (Some scenario_state) None = Ok tr
             /\ length tr = 1%nat
             /\ nth_error tr 0 = Some scenario_state)).
Proof.
  split; [lia |].
  apply (predict_rows_and_first_row ReferenceFacts.euler_contract SEIR_init
           scenario_state (3 # 10) (8 # 10) (15 # 100) (5 # 100) (2 # 10)
           (1 # 10) (1 # 10) (3 # 10) (765 # 1000) (75 # 100)).
  lia.
Defined.

(* ================================================================== *)
(** ** fit *)
(* ================================================================== *)

Section Fit.

Context {E : Externals}.

(** What a call of [fit] that returns has done. *)
Lemma fit_inv (m m' : SEIR) :
  fit m = Ok m' ->
  exists y0 res x0 x1 x2 x3 x4 x5 x6 x7 x8 x9,
    get_initial_state m = Ok y0
    /\ minimize (fit_call m) = Ok res
    /\ py_getitem (OptimizeResult.x res) 0 = Ok x0
    /\ py_getitem (OptimizeResult.x res) 1 = Ok x1
    /\ py_getitem (OptimizeResult.x res) 2 = Ok x2
    /\ py_getitem (OptimizeResult.x res) 3 = Ok x3
    /\ py_getitem (OptimizeResult.x res) 4 = Ok x4
    /\ py_getitem (OptimizeResult.x res) 5 = Ok x5
    /\ py_getitem (OptimizeResult.x res) 6 = Ok x6
    /\ py_getitem (OptimizeResult.x res) 7 = Ok x7
    /\ py_getitem (OptimizeResult.x res) 8 = Ok x8
    /\ py_getitem (OptimizeResult.x res) 9 = Ok x9
    /\ m' = set_prm m (mkParams x0 x1 x2 x3 x4 x5 x6 x7 x8 x9).
Proof.
  unfold fit. intro H.
  bind_inv_as H y0 Hy0.
  bind_inv H. bind_inv H.
  bind_inv_as H res Hres.
  cbv zeta in H.
  do 10 bind_inv H.
  inversion H; subst.
  exists y0, res. do 10 eexists.
  repeat (split; [eassumption |]). reflexivity.
Qed.

(** [fit] returns on whatever the optimizer answers, converged or not, as
    long as the answer has ten components. *)
Lemma fit_returns (m : SEIR) (y0 : State) (ds : Table) (time : list Q)
      (res : OptimizeResult.t) :
  get_initial_state m = Ok y0 ->
  dataset m = Some ds ->
  np_column ds 0 = Ok time ->
  minimize (fit_call m) = Ok res ->
  (10 <= length (OptimizeResult.x res))%nat ->
  exists m', fit m = Ok m'.
Proof.
  intros Hy0 Hds Ht Hres Hlen. unfold fit, the_dataset.
  rewrite Hy0, Hds. cbn [bind]. rewrite Ht. cbn [bind]. rewrite Hres. cbn [bind].
  destruct (OptimizeResult.x res) as [| x0 [| x1 [| x2 [| x3 [| x4 [| x5
           [| x6 [| x7 [| x8 [| x9 rest]]]]]]]]]]; cbn in Hlen; try lia.
  assert (G : forall i : Z, (0 <= i < 10)%Z ->
              exists v, py_getitem (x0 :: x1 :: x2 :: x3 :: x4 :: x5 :: x6 :: x7 :: x8 :: x9 :: rest)
                                   i = Ok v).
  { intros i Hi. unfold py_getitem.
    set (l := x0 :: x1 :: x2 :: x3 :: x4 :: x5 :: x6 :: x7 :: x8 :: x9 :: rest).
    assert (Hl : (10 <= length l)%nat) by (cbn; lia).
    destruct (i <? 0)%Z eqn:Hneg; [lia |].
    replace ((0 <=? i)%Z && (i <? Z.of_nat (length l))%Z)%bool
      with true by (symmetry; apply andb_true_iff; split; lia).
    destruct (nth_error l (Z.to_nat i)) as [v |] eqn:Hn; [eauto |].
    apply nth_error_None in Hn. lia. }
  cbv zeta.
  destruct (G 0%Z ltac:(lia)) as [v0 ->].
  destruct (G 1%Z ltac:(lia)) as [v1 ->].
  destruct (G 2%Z ltac:(lia)) as [v2 ->].
  destruct (G 3%Z ltac:(lia)) as [v3 ->].
  destruct (G 4%Z ltac:(lia)) as [v4 ->].
  destruct (G 5%Z ltac:(lia)) as [v5 ->].
  destruct (G 6%Z ltac:(lia)) as [v6 ->].
  destruct (G 7%Z ltac:(lia)) as [v7 ->].
  destruct (G 8%Z ltac:(lia)) as [v8 ->].
  destruct (G 9%Z ltac:(lia)) as [v9 ->].
  cbn [bind]. eexists. reflexivity.
Qed.

(** C8: whatever vector of ten components or more the single call of the
    optimizer returns, and whatever its success flag, [fit] completes and
    the ten parameter fields hold the first ten components of that vector,
    while the dataframe, the dataset, the initial-state fields and the
    hyperparameters (weights, bounds, smoothing factors, overflow floor,
    optimizer flags) are those of before. *)
Theorem fit_overwrites_parameters (m : SEIR) (y0 : State) (ds : Table)
        (time : list Q) (res : OptimizeResult.t) :
  get_initial_state m = Ok y0 ->
  dataset m = Some ds ->
  np_column ds 0 = Ok time ->
  minimize (fit_call m) = Ok res ->
  (10 <= length (OptimizeResult.x res))%nat ->
  exists m',
    fit m = Ok m'
    /\ py_getitem (OptimizeResult.x res) 0 = Ok (beta (prm m'))
    /\ py_getitem (OptimizeResult.x res) 1 = Ok (sigma (prm m'))
    /\ py_getitem (OptimizeResult.x res) 2 = Ok (gamma (prm m'))
    /\ py_getitem (OptimizeResult.x res) 3 = Ok (hp (prm m'))
    /\ py_getitem (OptimizeResult.x res) 4 = Ok (hcr (prm m'))
    /\ py_getitem (OptimizeResult.x res) 5 = Ok (pc (prm m'))
    /\ py_getitem (OptimizeResult.x res) 6 = Ok (pd (prm m'))
    /\ py_getitem (OptimizeResult.x res) 7 = Ok (pcr (prm m'))
    /\ py_getitem (OptimizeResult.x res) 8 = Ok (s (prm m'))
    /\ py_getitem (OptimizeResult.x res) 9 = Ok (t (prm m'))
    /\ dataframe m' = dataframe m
    /\ dataset m' = dataset m
    /\ init0 m' = init0 m
    /\ hyper m' = hyper m.
Proof.
  intros Hy0 Hds Ht Hres Hlen.
  destruct (fit_returns m Hy0 Hds Ht Hres Hlen) as [m' F].
  exists m'. split; [exact F |].
  apply fit_inv in F.
  destruct F as (y & res' & x0 & x1 & x2 & x3 & x4 & x5 & x6 & x7 & x8 & x9
                 & _ & Hres' & H0 & H1 & H2 & H3 & H4 & H5 & H6 & H7 & H8 & H9 & ->).
  rewrite Hres in Hres'. inversion Hres'; subst res'.
  cbn. repeat (split; [assumption |]). repeat split.
Qed.

End Fit.

(** C8 on three days of data and an optimizer that moves every parameter
    by one step and reports that it did not converge: [fit] takes the moved
    vector. *)
Lemma fit_overwrites_parameters_witness :
  exists res m',
    minimize (Externals := MovingOptimizer.externals)
             (fit_call (E := MovingOptimizer.externals) model_three_days) = Ok res
    /\ OptimizeResult.success res = false
    /\ fit (E := MovingOptimizer.externals) model_three_days = Ok m'
    /\ py_getitem (OptimizeResult.x res) 0 = Ok (beta (prm m'))
    /\ py_getitem (OptimizeResult.x res) 8 = Ok (s (prm m'))
    /\ beta (prm m') == 35 # 100
    /\ ~ beta (prm m') == beta (prm model_three_days)
    /\ dataset m' = dataset model_three_days
    /\ hyper m' = hyper model_three_days.
Proof.
  destruct (minimize (Externals := MovingOptimizer.externals)
                     (fit_call (E := MovingOptimizer.externals) model_three_days))
    as [res | e] eqn:M; [| vm_compute in M; discriminate M].
  assert (V : res = {| OptimizeResult.x :=
                         [7 # 20; 17 # 20; 1 # 5; 1 # 10; 1 # 4; 3 # 20; 3 # 20;
                          7 # 20; 163 # 200; 4 # 5];
                       OptimizeResult.success := false |})
    by (vm_compute in M; inversion M; reflexivity).
  destruct (@fit_overwrites_parameters MovingOptimizer.externals model_three_days
              (mkState (1000000 - 1 - 1 - 1) 1 1 0 1 0 0 1 1)
              [[0; 1; 10; 1; 1; 0; 0; 1]; [1; 2; 10; 2; 3; 0; 0; 2];
               [2; 3; 10; 4; 7; 1; 0; 3]]
              [0; 1; 2] res eq_refl eq_refl eq_refl M)
    as (m' & F & H0 & _ & _ & _ & _ & _ & _ & _ & H8 & _ & _ & Hd & _ & Hh).
  { rewrite V. cbn. lia. }
  exists res, m'. split; [reflexivity |]. split; [rewrite V; reflexivity |].
  split; [exact F |]. split; [exact H0 |]. split; [exact H8 |].
  assert (B : beta (prm m') = 7 # 20)
    by (rewrite V in H0; cbn in H0; inversion H0; reflexivity).
  rewrite B. split; [reflexivity |]. split; [| split; assumption].
  intro H. vm_compute in H. discriminate H.
Defined.

(** On that input the optimizer did not converge, and [fit] took its
    vector all the same. *)
Lemma fit_takes_a_failed_result :
  exists res,
    minimize (Externals := Reference.externals)
             (fit_call (E := Reference.externals) model_three_days) = Ok res
    /\ OptimizeResult.success res = false
    /\ exists m', fit (E := Reference.externals) model_three_days = Ok m'.
Proof.
  eexists. split; [vm_compute; reflexivity |]. split; [reflexivity |].
  eexists. vm_compute. reflexivity.
Qed.

(* ================================================================== *)
(** ** The sensitivity sweep *)
(* ================================================================== *)

Lemma get_initial_state_dataset (m1 m2 : SEIR) :
  dataset m1 = dataset m2 -> get_initial_state m1 = get_initial_state m2.
Proof.
  intro H. unfold get_initial_state, the_dataset. rewrite H. reflexivity.
Qed.

Lemma dataset_rows_dataset (m1 m2 : SEIR) :
  dataset m1 = dataset m2 -> dataset_rows m1 = dataset_rows m2.
Proof.
  intro H. unfold dataset_rows. rewrite H. reflexivity.
Qed.


Section SweepPrediction.

Context {E : Externals} (contract : odeint_contract E).

Lemma predict_four_raises (m : SEIR) (y0 : State) (duration : Z) (b sg g sv : Q) :
  get_initial_state m = Ok y0 ->
  (1 < duration)%Z ->
  predict m duration None (Some [b; sg; g; sv]) = Raise TypeError.
Proof.
  intros Hy0 Hd. unfold predict. rewrite Hy0. cbn [bind].
  destruct (np_arange_cons2 Hd) as [rest ->].
  apply (odeint_raises contract). reflexivity.
Qed.

Lemma sensib_predict_two_rows (m : SEIR) (ds : Table) (y0 : State) :
  dataset m = Some ds ->
  (2 <= length ds)%nat ->
  get_initial_state m = Ok y0 ->
  sensib_predict m = Raise TypeError.
Proof.
  intros Hds Hlen Hy0. unfold sensib_predict, dataset_rows. rewrite Hds.
  cbn [bind]. eapply predict_four_raises; [eassumption | lia].
Qed.

Lemma sensib_iteration_two_rows (m : SEIR) (ds : Table)
      (acc : list npfloat) (best : npfloat * Q) (sj : Q) :
  dataset m = Some ds ->
  (2 <= length ds)%nat ->
  exists e, sensib_iteration (m, acc, best) sj = Raise e
            /\ (forall m1, fit (set_s m sj) = Ok m1 -> e = TypeError).
Proof.
  intros Hds Hlen. unfold sensib_iteration.
  destruct (fit (set_s m sj)) as [m1 | e] eqn:F; cbn [bind].
  - exists TypeError. split; [| reflexivity].
    pose proof (fit_inv _ F) as I.
    destruct I as (y0 & res & x0 & x1 & x2 & x3 & x4 & x5 & x6 & x7 & x8 & x9
                   & Hy0 & _ & _ & _ & _ & _ & _ & _ & _ & _ & _ & _ & ->).
    rewrite (@sensib_predict_two_rows _ ds y0); trivial.
  - exists e. split; [reflexivity | discriminate].
Qed.




End SweepPrediction.



Lemma py_getitem_nat {A : Type} (l : list A) (i : nat) (d : A) :
  (i < length l)%nat -> py_getitem l (Z.of_nat i) = Ok (nth i l d).
Proof.
  intro Hi. unfold py_getitem.
  destruct (Z.of_nat i <? 0)%Z eqn:Hneg; [lia |].
  replace ((0 <=? Z.of_nat i)%Z && (Z.of_nat i <? Z.of_nat (length l))%Z)%bool
    with true by (symmetry; apply andb_true_iff; split; lia).
  rewrite Nat2Z.id.
  rewrite (nth_error_nth' l d Hi). reflexivity.
Qed.

Lemma for_each_fold {A S : Type} (g : S -> A -> S)
      (xs : list A) (body : S -> A -> result S) :
  (forall x, In x xs -> forall acc, body acc x = Ok (g acc x)) ->
  forall acc, for_each xs body acc = Ok (fold_left g xs acc).
Proof.
  induction xs as [| x rest IH]; cbn; intros Hb acc; [reflexivity |].
  rewrite Hb by (left; reflexivity). cbn [bind].
  apply IH. intros y Hy. apply Hb. right; exact Hy.
Qed.

Lemma fold_left_over_map {A B S : Type} (g : S -> B -> S) (f : A -> B)
      (xs : list A) (acc : S) :
  fold_left g (map f xs) acc = fold_left (fun a x => g a (f x)) xs acc.
Proof.
  revert acc. induction xs as [| x rest IH]; cbn; intro acc; [reflexivity | apply IH].
Qed.

Lemma fold_left_pointwise {A S : Type} (f g : S -> A -> S) (xs : list A) :
  (forall a x, f a x = g a x) ->
  forall acc, fold_left f xs acc = fold_left g xs acc.
Proof.
  intro Hfg. induction xs as [| x rest IH]; cbn; intro acc; [reflexivity |].
  rewrite Hfg. apply IH.
Qed.

Section SweepErrorFacts.

Context {E : Externals}.

(** The floored term of a time step is a finite float. *)
Lemma sensib_term_finite (k n p : Q) : is_finite (sensib_term k n p).
Proof.
  unfold sensib_term, pmf.
  destruct (binom_pmf k n p) as [q |]; cbn; [| exact Logic.I].
  destruct (Qsign q); cbn; exact Logic.I.
Qed.

(** The sweep floors its term as [objective] does, at the literal -1000. *)
Lemma sensib_term_floor (k n p : Q) :
  pmf_not_positive (binom_pmf k n p) -> sensib_term k n p = Finite (- (1000)).
Proof.
  unfold sensib_term, pmf.
  destruct (binom_pmf k n p) as [q |]; cbn; [| reflexivity].
  intro Hq. unfold Qsign. destruct (q ?= 0) eqn:C; cbn; try reflexivity.
  apply Qgt_alt in C. exfalso. lra.
Qed.

(** What a grid iteration that returns has appended and compared. *)
Lemma sensib_iteration_inv (m : SEIR) (acc : list npfloat) (best : npfloat * Q)
      (sj : Q) (st' : sweep_state) :
  sensib_iteration (m, acc, best) sj = Ok st' ->
  exists m1 pred err,
    fit (set_s m sj) = Ok m1
    /\ sensib_predict m1 = Ok pred
    /\ sensib_error m1 pred (sensib_params m1) = Ok err
    /\ st' = (m1, acc ++ [err], update_best best err sj).
Proof.
  unfold sensib_iteration. intro H.
  bind_inv_as H m1 F. bind_inv_as H pred P. bind_inv_as H err R.
  inversion H; subst. exists m1, pred, err. repeat split; assumption.
Qed.

(** The sweep compares the errors of the grid points in the order of the
    grid, starting from [(inf, 0)]. *)
Lemma sweep_tracks_best (grid : list Q) :
  forall m acc best m' acc' best',
    for_each grid sensib_iteration (m, acc, best) = Ok (m', acc', best') ->
    exists errs,
      acc' = acc ++ errs
      /\ length errs = length grid
      /\ best' = fold_left (fun b r => update_best b (fst r) (snd r))
                           (combine errs grid) best.
Proof.
  induction grid as [| sj rest IH]; cbn; intros m acc best m' acc' best' H.
  - inversion H; subst. exists []. rewrite app_nil_r. repeat split.
  - bind_inv_as H st1 H1.
    apply sensib_iteration_inv in H1.
    destruct H1 as (m1 & pred & err & _ & _ & _ & ->).
    apply IH in H. destruct H as (errs & -> & Hlen & ->).
    exists (err :: errs). rewrite <- app_assoc. cbn. repeat split. lia.
Qed.

End SweepErrorFacts.



Section SweepSelection.

Context {E : Externals}.


End SweepSelection.


Section SweepResult.

Context {E : Externals}.

(** A sweep that returns has recorded one error per grid point and holds
    as best the outcome of comparing them in order. *)
Lemma sensib_sweep_best (m m' : SEIR) (grid : list Q)
      (accuracies : list npfloat) (best : npfloat * Q) :
  sensib_sweep m grid = Ok (m', accuracies, best) ->
  length accuracies = length grid
  /\ best = best_of (combine accuracies grid).
Proof.
  unfold sensib_sweep. intro H. bind_inv H.
  apply sweep_tracks_best in H. destruct H as (errs & -> & Hlen & ->).
  split; [exact Hlen | reflexivity].
Qed.

End SweepResult.

(* ================================================================== *)
(** ** The incidence series in general *)
(* ================================================================== *)

Lemma py_getitem_last {A : Type} (l : list A) (d : A) :
  l <> [] -> py_getitem l (-1) = Ok (nth (length l - 1) l d).
Proof.
  intro Hl. unfold py_getitem.
  assert (Hn : (0 < length l)%nat) by (destruct l; [contradiction | cbn; lia]).
  change (-1 <? 0)%Z with true. cbv iota.
  replace ((0 <=? Z.of_nat (length l) + -1)%Z
           && (Z.of_nat (length l) + -1 <? Z.of_nat (length l))%Z)%bool
    with true by (symmetry; apply andb_true_iff; split; lia).
  replace (Z.to_nat (Z.of_nat (length l) + -1)) with (length l - 1)%nat by lia.
  rewrite (nth_error_nth' l d) by lia. reflexivity.
Qed.

Lemma py_getitem_previous {A : Type} (l : list A) (i : nat) (d : A) :
  (i < length l)%nat ->
  py_getitem l (Z.of_nat i - 1) = Ok (nth (previous_row (length l) i) l d).
Proof.
  intro Hi. destruct i as [| j].
  - cbn [previous_row]. change (Z.of_nat 0 - 1)%Z with (-1)%Z.
    apply py_getitem_last. destruct l; [cbn in Hi; lia | discriminate].
  - cbn [previous_row].
    replace (Z.of_nat (S j) - 1)%Z with (Z.of_nat j) by lia.
    apply py_getitem_nat. lia.
Qed.

Lemma fold_left_append {A B : Type} (h : A -> B) (xs : list A) (init : list B) :
  fold_left (fun c x => c ++ [h x]) xs init = init ++ map h xs.
Proof.
  revert init. induction xs as [| x rest IH]; cbn; intro init.
  - rewrite app_nil_r. reflexivity.
  - rewrite IH, <- app_assoc. reflexivity.
Qed.

(** The list [conta] of any trajectory: [CT[0]], then for every row [i]
    from 0 on the difference of [CT[i]] with the row before, the last row
    for [i = 0].  The entry read at time step [i + 1] is therefore the
    difference that belongs to time step [i]. *)
Lemma uncumul_entries (pred : list State) :
  pred <> [] ->
  uncumul pred
  = Ok (cCT (nth 0 pred scenario_state)
        :: map (fun i => cCT (nth i pred scenario_state)
                         - cCT (nth (previous_row (length pred) i) pred scenario_state))
               (seq 0 (length pred))).
Proof.
  intro Hne. unfold uncumul, pred_get.
  assert (Hn : (0 < length pred)%nat) by (destruct pred; [contradiction | cbn; lia]).
  rewrite (py_getitem_nat pred scenario_state Hn : py_getitem pred 0 = _).
  cbn [bind]. change (py_getitem (state_row ?r) 7) with (Ok (A := Q) (cCT r)).
  cbn [bind]. unfold py_range.
  rewrite (@for_each_fold _ _
             (fun conta z =>
                conta ++ [cCT (nth (Z.to_nat z) pred scenario_state)
                          - cCT (nth (previous_row (length pred) (Z.to_nat z)) pred
                                     scenario_state)])).
  - rewrite fold_left_over_map.
    rewrite (fold_left_pointwise
               _ (fun c i => c ++ [cCT (nth i pred scenario_state)
                                   - cCT (nth (previous_row (length pred) i) pred
                                              scenario_state)]))
      by (intros a i; rewrite Nat2Z.id; reflexivity).
    rewrite (fold_left_append
               (fun i => cCT (nth i pred scenario_state)
                         - cCT (nth (previous_row (length pred) i) pred scenario_state))).
    reflexivity.
  - intros z Hz acc. apply in_map_iff in Hz. destruct Hz as (i & <- & Hi).
    apply in_seq in Hi.
    rewrite (py_getitem_nat pred scenario_state) by lia. cbn [bind].
    change (py_getitem (state_row ?r) 7) with (Ok (A := Q) (cCT r)). cbn [bind].
    rewrite (py_getitem_previous pred scenario_state) by lia. cbn [bind].
    change (py_getitem (state_row ?r) 7) with (Ok (A := Q) (cCT r)). cbn [bind].
    rewrite Nat2Z.id. reflexivity.
Qed.

(* ================================================================== *)
(** ** The imported dataset in general *)
(* ================================================================== *)

Lemma py_getitem_nth_error {A : Type} (l : list A) (j : nat) :
  py_getitem l (Z.of_nat j)
  = match nth_error l j with
    | Some a => Ok a
    | None => Raise IndexError
    end.
Proof.
  unfold py_getitem.
  destruct (Z.of_nat j <? 0)%Z eqn:Hneg; [apply Z.ltb_lt in Hneg; lia |].
  rewrite Nat2Z.id.
  destruct ((0 <=? Z.of_nat j)%Z && (Z.of_nat j <? Z.of_nat (length l))%Z)%bool eqn:B;
    [reflexivity |].
  apply andb_false_iff in B.
  assert (Hj : (length l <= j)%nat) by (destruct B; lia).
  apply nth_error_None in Hj. rewrite Hj. reflexivity.
Qed.

Section ImportedDataset.

Context {E : Externals}.

Lemma np_column_length (a : Table) (j : Z) (col : list Q) :
  np_column a j = Ok col -> length col = length a.
Proof.
  revert col. induction a as [| row rest IH]; cbn; intros col H.
  - inversion H; reflexivity.
  - repeat bind_inv H. inversion H; subst. cbn. f_equal. eauto.
Qed.

(** The inserted column is read back at its position. *)
Lemma insert_column_reads (raw : Table) (loc : nat) :
  forall values raw',
    insert_column raw loc values = Ok raw' ->
    length values = length raw ->
    np_column raw' (Z.of_nat loc) = Ok values.
Proof.
  induction raw as [| row rest IH]; intros values raw' H Hlen.
  - destruct values; [| discriminate]. cbn in H. inversion H; reflexivity.
  - destruct values as [| v vs]; [discriminate |]. cbn in H.
    destruct (loc <=? length row)%nat eqn:L; [| discriminate].
    apply Nat.leb_le in L.
    bind_inv_as H rest' Hrest. inversion H; subst. cbn [np_column].
    rewrite py_getitem_nth_error.
    rewrite nth_error_app2 by (rewrite length_firstn; lia).
    rewrite length_firstn.
    replace (loc - Nat.min loc (length row))%nat with 0%nat by lia.
    cbn [nth_error bind].
    rewrite (IH vs rest' Hrest) by (cbn in Hlen; lia). reflexivity.
Qed.

(** A column to the left of the inserted one is left as it was. *)
Lemma insert_column_keeps (raw : Table) (loc j : nat) :
  (j < loc)%nat ->
  forall values raw' col,
    insert_column raw loc values = Ok raw' ->
    np_column raw (Z.of_nat j) = Ok col ->
    np_column raw' (Z.of_nat j) = Ok col.
Proof.
  intro Hj. induction raw as [| row rest IH]; intros values raw' col H Hcol.
  - cbn in H. inversion H; subst. exact Hcol.
  - destruct values as [| v vs]; [discriminate |]. cbn in H.
    destruct (loc <=? length row)%nat eqn:L; [| discriminate].
    apply Nat.leb_le in L.
    bind_inv_as H rest' Hrest. inversion H; subst.
    cbn [np_column] in *.
    bind_inv_as Hcol c Hc. bind_inv_as Hcol cs Hcs. inversion Hcol; subst.
    rewrite py_getitem_nth_error in *.
    rewrite nth_error_app1 by (rewrite length_firstn; lia).
    rewrite nth_error_firstn.
    replace (j <? loc)%nat with true by (symmetry; apply Nat.ltb_lt; exact Hj).
    rewrite Hc. cbn [bind].
    rewrite (IH vs rest' cs Hrest Hcs). reflexivity.
Qed.

(** Without smoothing, column 7 of the imported dataset is column 1 as it
    stands after its first row has been set to 1: a copy, not a running
    sum. *)
Lemma import_dataset_copies_column (m m' : SEIR) (raw : Table) :
  smoothing (hyper m) = false ->
  import_dataset m raw = Ok m' ->
  exists ds col,
    dataset m' = Some ds
    /\ np_column ds 1 = Ok col
    /\ np_column ds 7 = Ok col.
Proof.
  intros Hs H. unfold import_dataset in H. rewrite Hs in H.
  bind_inv_as H raw1 H1. bind_inv_as H col Hcol. bind_inv_as H raw2 H2.
  cbv zeta in H. bind_inv H. inversion H; subst. cbn [dataset].
  exists raw2, col. split; [reflexivity |]. split.
  - apply (@insert_column_keeps raw1 7 1 ltac:(lia) col raw2 col H2 Hcol).
  - apply (@insert_column_reads raw1 7 col raw2 H2).
    eapply np_column_length; eassumption.
Qed.

End ImportedDataset.

(* ================================================================== *)
(** ** The initial state *)
(* ================================================================== *)

Lemma py_getitem_nonneg {A : Type} (l : list A) (i : Z) :
  (0 <= i)%Z ->
  py_getitem l i
  = match nth_error l (Z.to_nat i) with
    | Some a => Ok a
    | None => Raise IndexError
    end.
Proof.
  intro Hi. rewrite <- (Z2Nat.id i Hi) at 1. apply py_getitem_nth_error.
Qed.

(** X1: on a dataset whose first row has at least four columns,
    [get_initial_state] returns the state with [I] the positive tests and
    [H] the hospitalised of that row, [E = I], [CT = I], [CH = H], nobody
    recovered, critical or dead, and a total population of one million. *)
Theorem get_initial_state_of_first_row (m : SEIR) (row : list Q) (rest : Table) :
  dataset m = Some (row :: rest) ->
  (4 <= length row)%nat ->
  exists st,
    get_initial_state m = Ok st
    /\ cI st = nth 1 row 0 /\ cH st = nth 3 row 0
    /\ cE st = cI st /\ cCT st = cI st /\ cCH st = cH st
    /\ cR st = 0 /\ cC st = 0 /\ cD st = 0
    /\ cS st + cE st + cI st + cR st + cH st + cC st + cD st == 1000000.
Proof.
  intros Hds Hlen. unfold get_initial_state, the_dataset, nd_get.
  rewrite Hds. cbn [bind].
  rewrite (@py_getitem_nonneg _ (row :: rest) 0) by lia. cbn [Z.to_nat nth_error bind].
  rewrite !(@py_getitem_nonneg _ row) by lia.
  change (Z.to_nat 1) with 1%nat. change (Z.to_nat 3) with 3%nat.
  rewrite (nth_error_nth' row 0) by lia. cbn [bind].
  rewrite (nth_error_nth' row 0) by lia. cbn [bind].
  eexists. split; [reflexivity |]. cbn.
  repeat (split; [reflexivity |]). ring.
Qed.

Lemma get_initial_state_of_first_row_witness :
  dataset model_three_days
  = Some ([0; 1; 10; 1; 1; 0; 0; 1]
            :: [[1; 2; 10; 2; 3; 0; 0; 2]; [2; 3; 10; 4; 7; 1; 0; 3]])
  /\ (4 <= length [0; 1; 10; 1; 1; 0; 0; 1])%nat
  /\ exists st,
      get_initial_state model_three_days = Ok st
      /\ cI st = nth 1 [0; 1; 10; 1; 1; 0; 0; 1] 0
      /\ cH st = nth 3 [0; 1; 10; 1; 1; 0; 0; 1] 0
      /\ cE st = cI st /\ cCT st = cI st /\ cCH st = cH st
      /\ cR st = 0 /\ cC st = 0 /\ cD st = 0
      /\ cS st + cE st + cI st + cR st + cH st + cC st + cD st == 1000000.
Proof.
  split; [reflexivity |]. split; [cbn; lia |].
  apply (@get_initial_state_of_first_row model_three_days
           [0; 1; 10; 1; 1; 0; 0; 1]
           [[1; 2; 10; 2; 3; 0; 0; 2]; [2; 3; 10; 4; 7; 1; 0; 3]] eq_refl).
  cbn. lia.
Defined.

(** X2: [get_initial_state] raises exactly in these cases: [TypeError] when
    no dataset has been imported, [IndexError] when the dataset is empty or
    its first row has fewer than four columns. *)
Theorem get_initial_state_raises (m : SEIR) (e : pyerr) :
  get_initial_state m = Raise e
  <-> (dataset m = None /\ e = TypeError)
      \/ (e = IndexError
          /\ (dataset m = Some []
              \/ exists row rest, dataset m = Some (row :: rest) /\ (length row < 4)%nat)).
Proof.
  unfold get_initial_state, the_dataset, nd_get.
  destruct (dataset m) as [[| row rest] |]; cbn [bind].
  - split.
    + intro H. cbn in H. inversion H. right. split; [reflexivity | left; reflexivity].
    + intros [[D _] | [-> _]]; [discriminate | reflexivity].
  - rewrite (@py_getitem_nonneg _ (row :: rest) 0) by lia. cbn [Z.to_nat nth_error bind].
    rewrite !(@py_getitem_nonneg _ row) by lia.
    change (Z.to_nat 1) with 1%nat. change (Z.to_nat 3) with 3%nat.
    destruct row as [| a [| b [| c [| d r]]]]; cbn [nth_error bind length].
    1-4: split;
      [ intro H; inversion H; right; split; [reflexivity |];
        right; eexists; eexists; split; [reflexivity | cbn; lia]
      | intros [[D _] | [-> _]]; [discriminate | reflexivity] ].
    split; [discriminate |].
    intros [[D _] | [_ [D | (row & rest' & D & L)]]]; try discriminate.
    inversion D; subst. cbn in L. lia.
  - split.
    + intro H. inversion H. left. split; reflexivity.
    + intros [[_ ->] | [_ [D | (row & rest & D & _)]]]; [reflexivity | discriminate ..].
Qed.

(* ================================================================== *)
(** ** More on the right-hand side *)
(* ================================================================== *)

(** [differential] accepts ten parameters and nothing else: it raises
    [TypeError] exactly when the tuple of extra arguments has another
    length, and returns exactly when it has ten components. *)
Theorem differential_arity (st : State) (u : Q) (args : list Q) :
  (differential st u args = Raise TypeError <-> length args <> 10%nat)
  /\ ((exists dv, differential st u args = Ok dv) <-> length args = 10%nat).
Proof.
  do 11 (destruct args as [| ? args];
         [ cbn; split; split; intro H;
           solve [ reflexivity | discriminate | lia | congruence
                 | destruct H; discriminate | eexists; reflexivity ] |]).
  cbn. split; split; intro H;
    solve [ reflexivity | discriminate | lia | destruct H; discriminate ].
Qed.

(** X3: a state without exposed, infectious, hospitalised or critical
    people is an equilibrium: whatever the ten rates are, every one of the
    nine components of the derivative is zero there, as long as someone
    is counted in the denominator. *)
Theorem differential_disease_free (st : State) (u b sg g h hc c d cr sv tv : Q) :
  cE st == 0 -> cI st == 0 -> cH st == 0 -> cC st == 0 ->
  ~ mixing_population st == 0 ->
  exists dv,
    differential st u [b; sg; g; h; hc; c; d; cr; sv; tv] = Ok dv
    /\ np_eq (dS dv) (Finite 0) /\ np_eq (dE dv) (Finite 0)
    /\ np_eq (dI dv) (Finite 0) /\ np_eq (dR dv) (Finite 0)
    /\ np_eq (dH dv) (Finite 0) /\ np_eq (dC dv) (Finite 0)
    /\ np_eq (dD dv) (Finite 0) /\ np_eq (dCT dv) (Finite 0)
    /\ np_eq (dCH dv) (Finite 0).
Proof.
  intros HE HI HH HC HN.
  eexists. split; [reflexivity |].
  unfold mixing_population in HN.
  cbn [dS dE dI dR dH dC dD dCT dCH np_neg np_sub].
  rewrite !np_div_finite by exact HN.
  unfold np_sub. cbn [np_add np_neg np_eq].
  assert (X : b * cS st * cI st == 0) by (setoid_rewrite HI; ring).
  repeat split.
  - setoid_rewrite X. unfold Qdiv. ring.
  - setoid_rewrite X. setoid_rewrite HE. unfold Qdiv. ring.
  - setoid_rewrite HE. setoid_rewrite HI. ring.
  - setoid_rewrite HI. setoid_rewrite HH. setoid_rewrite HC. ring.
  - setoid_rewrite HI. setoid_rewrite HH. ring.
  - setoid_rewrite HH. setoid_rewrite HC. ring.
  - setoid_rewrite HC. ring.
  - setoid_rewrite HE. ring.
  - setoid_rewrite HI. ring.
Qed.

Lemma differential_disease_free_witness :
  exists dv,
    differential (mkState 1000000 0 0 0 0 0 0 0 0) 0 (get_parameters SEIR_init) = Ok dv
    /\ np_eq (dS dv) (Finite 0) /\ np_eq (dE dv) (Finite 0)
    /\ np_eq (dI dv) (Finite 0) /\ np_eq (dR dv) (Finite 0)
    /\ np_eq (dH dv) (Finite 0) /\ np_eq (dC dv) (Finite 0)
    /\ np_eq (dD dv) (Finite 0) /\ np_eq (dCT dv) (Finite 0)
    /\ np_eq (dCH dv) (Finite 0).
Proof.
  apply (@differential_disease_free (mkState 1000000 0 0 0 0 0 0 0 0) 0
           (3 # 10) (8 # 10) (15 # 100) (5 # 100) (2 # 10)
           (1 # 10) (1 # 10) (3 # 10) (765 # 1000) (75 # 100));
    vm_compute; congruence.
Defined.

(** X4: on a state without negative compartments and with someone alive
    or dead, and for rates that are not negative, the susceptible never
    increase, and the dead and the two cumulative counters never
    decrease. *)
Theorem differential_signs (st : State) (u b sg g h hc c d cr sv tv : Q) :
  0 <= b -> 0 <= sg -> 0 <= h -> 0 <= d ->
  0 <= cS st -> 0 <= cE st -> 0 <= cI st -> 0 <= cR st ->
  0 <= cH st -> 0 <= cC st -> 0 <= cD st ->
  0 < mixing_population st ->
  exists dv vS vD vCT vCH,
    differential st u [b; sg; g; h; hc; c; d; cr; sv; tv] = Ok dv
    /\ dS dv = Finite vS /\ vS <= 0
    /\ dD dv = Finite vD /\ 0 <= vD
    /\ dCT dv = Finite vCT /\ 0 <= vCT
    /\ dCH dv = Finite vCH /\ 0 <= vCH.
Proof.
  intros Hb Hsg Hh Hd HS HE HI HR HH HC HD HN.
  assert (HN0 : ~ mixing_population st == 0) by (intro Z0; rewrite Z0 in HN; lra).
  eexists. do 4 eexists. split; [reflexivity |].
  unfold mixing_population in *.
  cbn [dS dD dCT dCH np_neg].
  rewrite np_div_finite by exact HN0.
  split; [reflexivity |].
  assert (HbS : 0 <= b * cS st) by (apply Qmult_le_0_compat; assumption).
  assert (Hx : 0 <= b * cS st * cI st) by (apply Qmult_le_0_compat; assumption).
  split.
  - apply Qle_shift_div_r; [exact HN |]. lra.
  - repeat split; try reflexivity; apply Qmult_le_0_compat; assumption.
Qed.

Lemma differential_signs_witness :
  exists dv vS vD vCT vCH,
    differential scenario_state 0
                 [3 # 10; 8 # 10; 15 # 100; 5 # 100; 2 # 10;
                  1 # 10; 1 # 10; 3 # 10; 765 # 1000; 75 # 100] = Ok dv
    /\ dS dv = Finite vS /\ vS <= 0
    /\ dD dv = Finite vD /\ 0 <= vD
    /\ dCT dv = Finite vCT /\ 0 <= vCT
    /\ dCH dv = Finite vCH /\ 0 <= vCH.
Proof.
  apply (@differential_signs scenario_state 0
           (3 # 10) (8 # 10) (15 # 100) (5 # 100) (2 # 10)
           (1 # 10) (1 # 10) (3 # 10) (765 # 1000) (75 # 100));
    vm_compute; congruence.
Defined.

(* ================================================================== *)
(** ** More on the normalisation *)
(* ================================================================== *)

Section NormalizedTerm.

Context {E : Externals}.

Lemma integral_flip (q : Q) : integral q -> integral (q * - (1)).
Proof.
  intros [z Hz]. exists (- z)%Z. rewrite Hz, inject_Z_opp. ring.
Qed.

Lemma integral_one : integral 1.
Proof. exists 1%Z. reflexivity. Qed.

Lemma integral_plus_two (q : Q) : integral q -> integral (q + (1 + 1)).
Proof.
  intros [z Hz]. exists (z + 2)%Z. rewrite Hz, inject_Z_plus. reflexivity.
Qed.

Lemma integral_mult (a b : Q) : integral a -> integral b -> integral (a * b).
Proof.
  intros [x Hx] [y Hy]. exists (x * y)%Z. rewrite Hx, Hy, inject_Z_mult. reflexivity.
Qed.

Lemma normalize_integral (k n : Q) :
  integral k -> integral n ->
  integral (fst (normalize k n)) /\ integral (snd (normalize k n)).
Proof.
  intros Hk Hn. unfold normalize.
  case_Qltb; cbn [fst snd]; split;
    auto using integral_flip, integral_one, integral_plus_two.
Qed.

(** X5: whatever [k] and [n] are, after the three repairs and the
    multiplication by a smoother of at least 1, the pair handed to
    [binom.pmf] satisfies [0 <= k <= n]; and when the observation, the
    rounded prediction and the smoother are integers, so are both numbers
    of the pair, which then lies in the support of the binomial law. *)
Theorem normalize_in_support (k n b_s : Q) :
  1 <= b_s ->
  0 <= fst (normalize k n)
  /\ 0 <= snd (normalize k n) * b_s
  /\ fst (normalize k n) <= snd (normalize k n) * b_s
  /\ (integral k -> integral n -> integral b_s ->
      integral (fst (normalize k n)) /\ integral (snd (normalize k n) * b_s)).
Proof.
  intro Hb. destruct (normalize_ordered k n) as [H0 H1].
  split; [| split; [| split]].
  4: { intros Ik In Ib. destruct (normalize_integral Ik In) as [I1 I2].
       split; [exact I1 | apply integral_mult; assumption]. }
  all: set (k' := fst (normalize k n)) in *; set (n' := snd (normalize k n)) in *.
  all: assert (Hn : 0 <= n') by lra.
  all: assert (P : n' * 1 <= n' * b_s)
    by (rewrite (Qmult_comm n' 1), (Qmult_comm n' b_s);
        apply Qmult_le_compat_r; assumption).
  all: lra.
Qed.

Lemma normalize_in_support_witness :
  1 <= 6
  /\ 0 <= fst (normalize (-3) 5)
  /\ 0 <= snd (normalize (-3) 5) * 6
  /\ fst (normalize (-3) 5) <= snd (normalize (-3) 5) * 6
  /\ (integral (-3) -> integral 5 -> integral 6 ->
      integral (fst (normalize (-3) 5)) /\ integral (snd (normalize (-3) 5) * 6)).
Proof.
  assert (H : 1 <= 6) by (vm_compute; discriminate).
  split; [exact H |]. exact (@normalize_in_support (-3) 5 6 H).
Defined.

(** The three numbers of that input are integers. *)
Lemma integers_of_the_example : integral (-3) /\ integral 5 /\ integral 6.
Proof.
  repeat split; [exists (-3)%Z | exists 5%Z | exists 6%Z]; reflexivity.
Qed.

(** X6: a likelihood term does not tell the observation from the
    prediction: for two different numbers, exchanging [k] and [n] gives
    the same normalised pair and the same term. *)
Theorem likelihood_term_symmetric (ov k n b_s : Q) :
  ~ k == n ->
  normalize k n = normalize n k
  /\ likelihood_term ov n k b_s = likelihood_term ov k n b_s.
Proof.
  intro Hkn.
  assert (S : normalize k n = normalize n k).
  { unfold normalize. case_Qltb; try reflexivity; exfalso;
      try lra; apply Hkn; lra. }
  split; [exact S |].
  unfold likelihood_term. rewrite S. reflexivity.
Qed.

End NormalizedTerm.

Lemma likelihood_term_symmetric_witness :
  ~ 2 == 5
  /\ normalize 2 5 = normalize 5 2
  /\ likelihood_term (E := Reference.externals) (- (1000)) 5 2 6
     = likelihood_term (E := Reference.externals) (- (1000)) 2 5 6.
Proof.
  assert (H : ~ 2 == 5) by (intro H; vm_compute in H; discriminate H).
  split; [exact H |].
  exact (@likelihood_term_symmetric Reference.externals (- (1000)) 2 5 6 H).
Defined.

(* ================================================================== *)
(** ** More on [objective] *)
(* ================================================================== *)

Lemma for_each_returns {A S : Type} (xs : list A) (body : S -> A -> result S) :
  (forall x, In x xs -> forall acc, exists acc', body acc x = Ok acc') ->
  forall acc, exists acc', for_each xs body acc = Ok acc'.
Proof.
  induction xs as [| x rest IH]; cbn; intros Hb acc; [eauto |].
  destruct (Hb x (or_introl eq_refl) acc) as [acc1 ->]. cbn [bind].
  apply IH. intros y Hy. apply Hb. right; exact Hy.
Qed.

Lemma pred_get_in_range (pred : list State) (i : nat) (j : Z) :
  (i < length pred)%nat -> (0 <= j < 9)%Z ->
  exists v, pred_get pred (Z.of_nat i) j = Ok v.
Proof.
  intros Hi Hj. unfold pred_get.
  rewrite (py_getitem_nat pred scenario_state Hi). cbn [bind].
  rewrite py_getitem_nonneg by lia.
  destruct (nth_error (state_row (nth i pred scenario_state)) (Z.to_nat j)) as [v |] eqn:N;
    [eauto |].
  apply nth_error_None in N. cbn in N. lia.
Qed.

Lemma nd_get_in_range (a : Table) (cols i : nat) (j : Z) :
  rows_have cols a -> (i < length a)%nat -> (0 <= j < Z.of_nat cols)%Z ->
  exists v, nd_get a (Z.of_nat i) j = Ok v.
Proof.
  intros Hrows Hi Hj. unfold nd_get.
  rewrite (py_getitem_nat a [] Hi). cbn [bind].
  rewrite py_getitem_nonneg by lia.
  destruct (nth_error (nth i a []) (Z.to_nat j)) as [v |] eqn:N; [eauto |].
  apply nth_error_None in N.
  assert (L : (cols <= length (nth i a []))%nat).
  { unfold rows_have in Hrows. rewrite Forall_forall in Hrows.
    apply Hrows. apply nth_In. exact Hi. }
  lia.
Qed.

Lemma get_initial_state_returns (m : SEIR) (ds : Table) :
  dataset m = Some ds -> ds <> [] -> rows_have 4 ds ->
  exists st, get_initial_state m = Ok st.
Proof.
  intros Hds Hne Hrows. unfold get_initial_state, the_dataset. rewrite Hds. cbn [bind].
  assert (H0 : (0 < length ds)%nat) by (destruct ds; [contradiction | cbn; lia]).
  destruct (@nd_get_in_range ds 4 0 1 Hrows H0 ltac:(lia)) as [v1 E1].
  destruct (@nd_get_in_range ds 4 0 3 Hrows H0 ltac:(lia)) as [v3 E3].
  cbn [Z.of_nat] in E1, E3. rewrite E1. cbn [bind]. rewrite E3. cbn [bind].
  eexists. reflexivity.
Qed.

Lemma rows_have_weaken (k k' : nat) (a : Table) :
  (k' <= k)%nat -> rows_have k a -> rows_have k' a.
Proof.
  intros Hk H. unfold rows_have in *. eapply Forall_impl; [| exact H].
  cbn. intros row Hr. lia.
Qed.

Section ObjectiveValue.

Context {E : Externals}.

Lemma likelihood_term_returns (ov n k b_s : Q) :
  ~ b_s == 0 -> exists v, likelihood_term ov n k b_s = Ok v.
Proof.
  intro Hb. unfold likelihood_term. rewrite (py_div_Ok 1 Hb). cbn [bind].
  destruct (normalize k n). eexists. reflexivity.
Qed.

Lemma uncumul_returns (pred : list State) :
  pred <> [] ->
  exists conta, uncumul pred = Ok conta /\ length conta = S (length pred).
Proof.
  intro Hne. rewrite (uncumul_entries Hne). eexists. split; [reflexivity |].
  cbn [length]. rewrite length_map, length_seq. reflexivity.
Qed.

(** X7: [uncumul] returns exactly on the trajectories that have a row, then
    with one entry more than there are rows; on the empty trajectory it
    raises [IndexError]. *)
Theorem uncumul_length (pred : list State) :
  ((exists conta, uncumul pred = Ok conta /\ length conta = S (length pred))
   <-> pred <> [])
  /\ (uncumul pred = Raise IndexError <-> pred = []).
Proof.
  destruct pred as [| r rest].
  - split; split.
    + intros (conta & H & _). discriminate H.
    + intro H. contradiction.
    + reflexivity.
    + reflexivity.
  - destruct (@uncumul_returns (r :: rest) ltac:(discriminate)) as (conta & H & L).
    split; split.
    + discriminate.
    + intros _. eauto.
    + rewrite H. discriminate.
    + discriminate.
Qed.

(** With a [method] other than ['method_1'], [objective] computes
    nothing and returns Python's [None], without an exception, whatever
    the parameters and even before a dataset has been imported. *)
Theorem objective_other_method (m : SEIR) (parameters : list Q) (method : string) :
  method <> "method_1"%string ->
  objective m parameters method = Ok None.
Proof.
  intro H. unfold objective.
  destruct (String.eqb method "method_1") eqn:B; [| reflexivity].
  apply String.eqb_eq in B. contradiction.
Qed.

Section WellFormed.

Variables (m : SEIR) (ds : Table) (p0 p1 p2 p3 p4 p5 p6 p7 p8 p9 : Q).
Hypothesis contract : odeint_contract E.
Hypothesis Hds : dataset m = Some ds.
Hypothesis Hne : ds <> [].
Hypothesis Hrows : rows_have 8 ds.

Lemma predict_on_dataset :
  exists pred,
    predict m (Z.of_nat (length ds)) None (Some [p0; p1; p2; p3; p4; p5; p6; p7; p8; p9])
    = Ok pred
    /\ length pred = length ds.
Proof.
  unfold predict.
  destruct (@get_initial_state_returns m ds Hds Hne
              (@rows_have_weaken 8 4 ds ltac:(lia) Hrows)) as [y0 ->].
  cbn [bind].
  assert (Hpos : (0 < Z.of_nat (length ds))%Z)
    by (destruct ds; [contradiction | cbn; lia]).
  destruct (np_arange_cons Hpos) as [rest Hts].
  destruct (odeint_returns contract
              (fun y u => differential y u [p0; p1; p2; p3; p4; p5; p6; p7; p8; p9])
              y0 (inject_Z 0) rest) as [tr Htr].
  { intros y u. apply differential_returns. }
  exists tr. rewrite Hts. split; [exact Htr |].
  rewrite (odeint_rows contract _ _ _ Htr), <- Hts, np_arange_length.
  apply Nat2Z.id.
Qed.

Lemma objective_step_returns (pred : list State) (conta : list Q)
      (prb : npfloat) (i : nat) :
  ~ b_s_1 (hyper m) == 0 -> ~ b_s_2 (hyper m) == 0 -> ~ b_s_3 (hyper m) == 0 ->
  ~ b_s_4 (hyper m) == 0 -> ~ b_s_5 (hyper m) == 0 -> ~ b_s_6 (hyper m) == 0 ->
  (i < length pred)%nat -> (i < length conta)%nat -> (i < length ds)%nat ->
  exists prb',
    objective_step m [p0; p1; p2; p3; p4; p5; p6; p7; p8; p9] pred conta ds prb (Z.of_nat i)
    = Ok prb'.
Proof.
  intros B1 B2 B3 B4 B5 B6 Hi Hc Hd. unfold objective_step.
  change (py_getitem [p0; p1; p2; p3; p4; p5; p6; p7; p8; p9] 8) with (Ok p8).
  change (py_getitem [p0; p1; p2; p3; p4; p5; p6; p7; p8; p9] 9) with (Ok p9).
  rewrite (py_getitem_nat conta 0 Hc).
  repeat first
    [ progress cbn [bind]
    | match goal with
      | |- context [pred_get pred (Z.of_nat i) ?j] =>
          let v := fresh "v" in
          destruct (@pred_get_in_range pred i j Hi ltac:(lia)) as [v ->]
      | |- context [nd_get ds (Z.of_nat i) ?j] =>
          let v := fresh "v" in
          destruct (@nd_get_in_range ds 8 i j Hrows Hd ltac:(lia)) as [v ->]
      | |- context [likelihood_term ?ov ?n ?k ?b] =>
          let v := fresh "v" in
          destruct (@likelihood_term_returns ov n k b ltac:(assumption)) as [v ->]
      end ].
  eexists. reflexivity.
Qed.

(** X8: on a dataset with at least one row and eight columns in every row,
    with ten parameters and six smoothers that are not zero, and an
    integrator that keeps the contract of [odeint], [objective] returns a
    number, and that number is finite: neither nan nor an infinity. *)
Theorem objective_returns_finite :
  ~ b_s_1 (hyper m) == 0 -> ~ b_s_2 (hyper m) == 0 -> ~ b_s_3 (hyper m) == 0 ->
  ~ b_s_4 (hyper m) == 0 -> ~ b_s_5 (hyper m) == 0 -> ~ b_s_6 (hyper m) == 0 ->
  exists prb,
    objective m [p0; p1; p2; p3; p4; p5; p6; p7; p8; p9] "method_1" = Ok (Some prb)
    /\ is_finite prb.
Proof.
  intros B1 B2 B3 B4 B5 B6.
  assert (R : exists prb,
             objective m [p0; p1; p2; p3; p4; p5; p6; p7; p8; p9] "method_1"
             = Ok (Some prb)).
  { unfold objective. cbn [String.eqb Ascii.eqb Bool.eqb].
    unfold dataset_rows, the_dataset. rewrite Hds. cbn [bind].
    destruct predict_on_dataset as (pred & -> & Hlen). cbn [bind].
    assert (Hp : pred <> []) by (intro Z0; subst pred; destruct ds; [contradiction | discriminate]).
    destruct (uncumul_returns Hp) as (conta & -> & Hc). cbn [bind].
    destruct (@for_each_returns _ _ (py_range (length pred))
                (objective_step m [p0; p1; p2; p3; p4; p5; p6; p7; p8; p9] pred conta ds))
      with (acc := Finite 0) as [prb ->].
    - intros z Hz acc. unfold py_range in Hz. apply in_map_iff in Hz.
      destruct Hz as (i & <- & Hi). apply in_seq in Hi.
      apply objective_step_returns; trivial; lia.
    - cbn [bind]. eexists. reflexivity. }
  destruct R as [prb H]. exists prb. split; [exact H |].
  eapply objective_finite; eassumption.
Qed.

(** X9: on a dataset with at least one row and eight columns in every row,
    with ten parameters and an integrator that keeps the contract of
    [odeint], a first smoother equal to zero makes [objective] raise
    [ZeroDivisionError]. *)
Theorem objective_zero_smoother :
  b_s_1 (hyper m) == 0 ->
  objective m [p0; p1; p2; p3; p4; p5; p6; p7; p8; p9] "method_1"
  = Raise ZeroDivisionError.
Proof.
  intro B1. unfold objective. cbn [String.eqb Ascii.eqb Bool.eqb].
  unfold dataset_rows, the_dataset. rewrite Hds. cbn [bind].
  destruct predict_on_dataset as (pred & -> & Hlen). cbn [bind].
  assert (Hp : pred <> []) by (intro Z0; subst pred; destruct ds; [contradiction | discriminate]).
  destruct (uncumul_returns Hp) as (conta & -> & Hc). cbn [bind].
  assert (H0 : (0 < length pred)%nat) by (destruct pred; [contradiction | cbn; lia]).
  destruct (length pred) as [| k] eqn:L; [lia |].
  unfold py_range. cbn [seq map for_each].
  replace (objective_step m [p0; p1; p2; p3; p4; p5; p6; p7; p8; p9] pred conta ds
                          (Finite 0) (Z.of_nat 0))
    with (Raise (A := npfloat) ZeroDivisionError); [reflexivity |].
  unfold objective_step.
  change (py_getitem [p0; p1; p2; p3; p4; p5; p6; p7; p8; p9] 8) with (Ok p8).
  change (py_getitem [p0; p1; p2; p3; p4; p5; p6; p7; p8; p9] 9) with (Ok p9).
  cbn [bind].
  destruct (@pred_get_in_range pred 0 7 ltac:(lia) ltac:(lia)) as [v ->]. cbn [bind].
  destruct (@nd_get_in_range ds 8 0 7 Hrows ltac:(lia) ltac:(lia)) as [w ->]. cbn [bind].
  unfold likelihood_term, py_div.
  apply Qeq_alt in B1. rewrite B1. reflexivity.
Qed.

End WellFormed.

End ObjectiveValue.

Lemma objective_other_method_witness :
  "method_2"%string <> "method_1"%string
  /\ objective (E := Reference.externals) SEIR_init [] "method_2" = Ok None.
Proof.
  assert (H : "method_2"%string <> "method_1"%string) by discriminate.
  split; [exact H |].
  exact (@objective_other_method Reference.externals SEIR_init [] "method_2" H).
Defined.

Lemma three_days_have_eight_columns :
  rows_have 8 [[0; 1; 10; 1; 1; 0; 0; 1];
               [1; 2; 10; 2; 3; 0; 0; 2];
               [2; 3; 10; 4; 7; 1; 0; 3]].
Proof. repeat constructor. Qed.

Lemma objective_returns_finite_witness :
  exists prb,
    objective (E := Reference.externals) model_three_days
              [3 # 10; 8 # 10; 15 # 100; 5 # 100; 2 # 10;
               1 # 10; 1 # 10; 3 # 10; 765 # 1000; 75 # 100] "method_1"
    = Ok (Some prb)
    /\ is_finite prb.
Proof.
  apply (@objective_returns_finite Reference.externals model_three_days _
           (3 # 10) (8 # 10) (15 # 100) (5 # 100) (2 # 10)
           (1 # 10) (1 # 10) (3 # 10) (765 # 1000) (75 # 100)
           ReferenceFacts.euler_contract eq_refl);
    try (intro H; vm_compute in H; discriminate H).
  apply three_days_have_eight_columns.
Defined.

Lemma objective_zero_smoother_witness :
  b_s_1 (hyper model_zero_smoother) == 0
  /\ objective (E := Reference.externals) model_zero_smoother
               [3 # 10; 8 # 10; 15 # 100; 5 # 100; 2 # 10;
                1 # 10; 1 # 10; 3 # 10; 765 # 1000; 75 # 100] "method_1"
     = Raise ZeroDivisionError.
Proof.
  assert (B : b_s_1 (hyper model_zero_smoother) == 0) by reflexivity.
  split; [exact B |].
  apply (@objective_zero_smoother Reference.externals model_zero_smoother _
           (3 # 10) (8 # 10) (15 # 100) (5 # 100) (2 # 10)
           (1 # 10) (1 # 10) (3 # 10) (765 # 1000) (75 # 100)
           ReferenceFacts.euler_contract eq_refl); trivial.
  - discriminate.
  - apply three_days_have_eight_columns.
Defined.

(* ================================================================== *)
(** ** More on [fit] *)
(* ================================================================== *)

(** A literal index into a list of ten. *)
Ltac index_ten :=
  repeat match goal with
         | |- context [py_getitem [?a0; ?a1; ?a2; ?a3; ?a4; ?a5; ?a6; ?a7; ?a8; ?a9] ?i] =>
             let r := eval vm_compute in (nth_error [0%nat; 1%nat; 2%nat; 3%nat; 4%nat; 5%nat;
                                                      6%nat; 7%nat; 8%nat; 9%nat] (Z.to_nat i)) in
             match r with
             | Some 0%nat => change (py_getitem [a0; a1; a2; a3; a4; a5; a6; a7; a8; a9] i) with (Ok a0)
             | Some 1%nat => change (py_getitem [a0; a1; a2; a3; a4; a5; a6; a7; a8; a9] i) with (Ok a1)
             | Some 2%nat => change (py_getitem [a0; a1; a2; a3; a4; a5; a6; a7; a8; a9] i) with (Ok a2)
             | Some 3%nat => change (py_getitem [a0; a1; a2; a3; a4; a5; a6; a7; a8; a9] i) with (Ok a3)
             | Some 4%nat => change (py_getitem [a0; a1; a2; a3; a4; a5; a6; a7; a8; a9] i) with (Ok a4)
             | Some 5%nat => change (py_getitem [a0; a1; a2; a3; a4; a5; a6; a7; a8; a9] i) with (Ok a5)
             | Some 6%nat => change (py_getitem [a0; a1; a2; a3; a4; a5; a6; a7; a8; a9] i) with (Ok a6)
             | Some 7%nat => change (py_getitem [a0; a1; a2; a3; a4; a5; a6; a7; a8; a9] i) with (Ok a7)
             | Some 8%nat => change (py_getitem [a0; a1; a2; a3; a4; a5; a6; a7; a8; a9] i) with (Ok a8)
             | Some 9%nat => change (py_getitem [a0; a1; a2; a3; a4; a5; a6; a7; a8; a9] i) with (Ok a9)
             end
         end.

Section FitCall.

Context {E : Externals}.

(** X10: when neither [LBFGSB] nor [cobyla] is set, [fit] hands the
    optimizer no extra argument for the objective, so every evaluation
    [fun(x, *args)] of the objective raises [TypeError] for want of
    [method]; the flag [auto] is not read. *)
Theorem fit_third_strategy_cannot_evaluate (m : SEIR) (x : list Q) :
  LBFGSB (hyper m) = false ->
  cobyla (hyper m) = false ->
  mc_method (fit_call m) = None
  /\ mc_args (fit_call m) = []
  /\ mc_fun (fit_call m) x (mc_args (fit_call m)) = Raise TypeError.
Proof.
  intros HL HC. unfold fit_call. rewrite HL, HC. repeat split.
Qed.

(** With one of the two flags set, an evaluation is
    [objective(x, 'method_1')]. *)
Lemma fit_call_evaluates_objective (m : SEIR) (x : list Q) :
  LBFGSB (hyper m) = true \/ cobyla (hyper m) = true ->
  mc_fun (fit_call m) x (mc_args (fit_call m)) = objective m x "method_1".
Proof.
  intro H. unfold fit_call.
  destruct (LBFGSB (hyper m)); [reflexivity |].
  destruct (cobyla (hyper m)); [reflexivity |].
  destruct H; discriminate.
Qed.

(** X11: unless [LBFGSB] is set, the twenty inequality constraints that
    [fit] hands the optimizer say that each of the ten components lies
    between its two bounds: a vector of ten satisfies them all if and only
    if it is within the bounds of the model. *)
Theorem constraints_are_bounds (m : SEIR) (x0 x1 x2 x3 x4 x5 x6 x7 x8 x9 : Q) :
  LBFGSB (hyper m) = false ->
  feasible (mc_constraints (fit_call m)) [x0; x1; x2; x3; x4; x5; x6; x7; x8; x9]
  <-> within_bounds (hyper m) x0 x1 x2 x3 x4 x5 x6 x7 x8 x9.
Proof.
  intro HL.
  assert (C : mc_constraints (fit_call m)
              = let h := hyper m in
                [upper_edge 0 (beta_max h); upper_edge 1 (sigma_max h);
                 upper_edge 2 (gamma_max h); upper_edge 3 (hp_max h);
                 upper_edge 4 (hcr_max h); upper_edge 5 (pc_max h);
                 upper_edge 6 (pd_max h); upper_edge 7 (pcr_max h);
                 upper_edge 8 (s_max h); upper_edge 9 (t_max h);
                 lower_edge 0 (beta_min h); lower_edge 1 (sigma_min h);
                 lower_edge 2 (gamma_min h); lower_edge 3 (hp_min h);
                 lower_edge 4 (hcr_min h); lower_edge 5 (pc_min h);
                 lower_edge 6 (pd_min h); lower_edge 7 (pcr_min h);
                 lower_edge 8 (s_min h); lower_edge 9 (t_min h)]).
  { unfold fit_call. rewrite HL. destruct (cobyla (hyper m)); reflexivity. }
  rewrite C. cbv zeta. unfold feasible, within_bounds.
  repeat rewrite Forall_cons_iff. rewrite Forall_nil_iff.
  unfold upper_edge, lower_edge. cbn [cfun]. index_ten. cbn [bind].
  split.
  - intro H. decompose [and ex] H; clear H.
    repeat match goal with
           | H : Ok _ = Ok _ |- _ => inversion H; clear H; subst
           end.
    repeat split; lra.
  - intro H. decompose [and] H; clear H.
    repeat split; try (eexists; split; [reflexivity | lra]).
Qed.

End FitCall.

Lemma constraints_are_bounds_witness :
  LBFGSB (hyper SEIR_init) = false
  /\ (feasible (mc_constraints (fit_call (E := Reference.externals) SEIR_init))
               [3 # 10; 8 # 10; 15 # 100; 5 # 100; 2 # 10;
                1 # 10; 1 # 10; 3 # 10; 765 # 1000; 75 # 100]
      <-> within_bounds (hyper SEIR_init)
                        (3 # 10) (8 # 10) (15 # 100) (5 # 100) (2 # 10)
                        (1 # 10) (1 # 10) (3 # 10) (765 # 1000) (75 # 100)).
Proof.
  split; [reflexivity |].
  exact (@constraints_are_bounds Reference.externals SEIR_init
           (3 # 10) (8 # 10) (15 # 100) (5 # 100) (2 # 10)
           (1 # 10) (1 # 10) (3 # 10) (765 # 1000) (75 # 100) eq_refl).
Defined.

Lemma fit_third_strategy_cannot_evaluate_witness :
  LBFGSB (hyper model_auto) = false
  /\ cobyla (hyper model_auto) = false
  /\ mc_method (fit_call (E := Reference.externals) model_auto) = None
  /\ mc_args (fit_call (E := Reference.externals) model_auto) = []
  /\ mc_fun (fit_call (E := Reference.externals) model_auto)
            (get_parameters model_auto)
            (mc_args (fit_call (E := Reference.externals) model_auto))
     = Raise TypeError.
Proof.
  split; [reflexivity |]. split; [reflexivity |].
  exact (@fit_third_strategy_cannot_evaluate Reference.externals model_auto
           (get_parameters model_auto) eq_refl eq_refl).
Defined.

Section FitErrors.

Context {E : Externals}.

Lemma fit_tail_short (m : SEIR) (rx : list Q) :
  (length rx < 10)%nat ->
  (x0 <- py_getitem rx 0 ;;
   x1 <- py_getitem rx 1 ;;
   x2 <- py_getitem rx 2 ;;
   x3 <- py_getitem rx 3 ;;
   x4 <- py_getitem rx 4 ;;
   x5 <- py_getitem rx 5 ;;
   x6 <- py_getitem rx 6 ;;
   x7 <- py_getitem rx 7 ;;
   x8 <- py_getitem rx 8 ;;
   x9 <- py_getitem rx 9 ;;
   Ok (set_prm m {| beta := x0; sigma := x1; gamma := x2; hp := x3; hcr := x4;
                    pc := x5; pd := x6; pcr := x7; s := x8; t := x9 |}))
  = Raise IndexError.
Proof.
  intro L. do 10 (destruct rx as [| ? rx]; [reflexivity |]). cbn in L. lia.
Qed.

(** X12: the ways in which [fit] raises, and no other: [get_initial_state]
    raises; the column of days cannot be read; the optimizer raises, and
    its exception is the one of [fit]; or the optimizer returns a vector of
    fewer than ten components, and reading it raises [IndexError]. *)
Theorem fit_raises (m : SEIR) (e : pyerr) :
  fit m = Raise e
  <-> get_initial_state m = Raise e
      \/ (exists y0 ds,
             get_initial_state m = Ok y0 /\ dataset m = Some ds
             /\ (np_column ds 0 = Raise e
                 \/ (exists time,
                        np_column ds 0 = Ok time
                        /\ (minimize (fit_call m) = Raise e
                            \/ (exists res,
                                   minimize (fit_call m) = Ok res
                                   /\ (length (OptimizeResult.x res) < 10)%nat
                                   /\ e = IndexError))))).
Proof.
  assert (RR : forall (A B : Type) (a b : pyerr),
             Raise (A := A) a = Raise b -> Raise (A := B) a = Raise b)
    by (intros A B a b H; inversion H; reflexivity).
  destruct (get_initial_state m) as [y0 | e0] eqn:I.
  2: { unfold fit. rewrite I. cbn [bind]. split.
       - intro H. left. exact (RR _ _ _ _ H).
       - intros [H | (y & ds & H & _)]; [exact (RR _ _ _ _ H) | discriminate]. }
  assert (D : exists ds, dataset m = Some ds).
  { unfold get_initial_state, the_dataset in I.
    destruct (dataset m) as [ds |]; [eauto | discriminate]. }
  destruct D as [ds D].
  destruct (np_column ds 0) as [time | e1] eqn:C.
  2: { unfold fit, the_dataset. rewrite I, D. cbn [bind]. rewrite C. cbn [bind]. split.
       - intro H. right. exists y0, ds. repeat split; trivial. left.
         rewrite C. exact (RR _ _ _ _ H).
       - intros [H | (y & ds' & _ & D' & T)]; [discriminate |].
         try rewrite D in D'. inversion D'; subst ds'. try rewrite C in T.
         destruct T as [H | (tm & H & _)]; [exact (RR _ _ _ _ H) | discriminate]. }
  destruct (minimize (fit_call m)) as [res | e2] eqn:M.
  2: { unfold fit, the_dataset. rewrite I, D. cbn [bind]. rewrite C. cbn [bind].
       rewrite M. cbn [bind]. split.
       - intro H. right. exists y0, ds. repeat split; trivial.
         right. exists time. split; [exact C |]. left. exact (RR _ _ _ _ H).
       - intros [H | (y & ds' & _ & D' & T)]; [discriminate |].
         try rewrite D in D'. inversion D'; subst ds'. try rewrite C in T.
         destruct T as [H | (tm & _ & [H | (r & H & _)])];
           [discriminate | exact (RR _ _ _ _ H) | discriminate]. }
  destruct (le_lt_dec 10 (length (OptimizeResult.x res))) as [L | L].
  - destruct (fit_returns m I D C M L) as [m' F]. rewrite F. split; [discriminate |].
    intros [H | (y & ds' & _ & D' & T)]; [discriminate |].
    try rewrite D in D'. inversion D'; subst ds'. try rewrite C in T.
    destruct T as [H | (tm & _ & [H | (r & H & Lr & _)])]; try discriminate.
    inversion H; subst r. lia.
  - unfold fit, the_dataset. rewrite I, D. cbn [bind]. rewrite C. cbn [bind].
    rewrite M. cbn [bind]. cbv zeta. rewrite (fit_tail_short m _ L). split.
    + intro H. inversion H; subst e. right. exists y0, ds. repeat split; trivial.
      right. exists time. split; [exact C |]. right. exists res. repeat split; trivial.
    + intros [H | (y & ds' & _ & D' & T)]; [discriminate |].
      try rewrite D in D'. inversion D'; subst ds'. try rewrite C in T.
      destruct T as [H | (tm & _ & [H | (r & _ & _ & ->)])];
        [discriminate | discriminate | reflexivity].
Qed.

(** X13: a value given to [s] before [fit], as the sweep does with each
    grid point, is the ninth component of the optimizer's starting point
    and nothing more: whatever vector the optimizer answers, [fit]
    completes and the [s] it leaves is the ninth component of that
    answer. *)
Theorem fit_after_set_s (m : SEIR) (sj : Q) (y0 : State) (ds : Table)
        (time : list Q) (res : OptimizeResult.t) :
  get_initial_state m = Ok y0 ->
  dataset m = Some ds ->
  np_column ds 0 = Ok time ->
  minimize (fit_call (set_s m sj)) = Ok res ->
  (10 <= length (OptimizeResult.x res))%nat ->
  exists m1,
    fit (set_s m sj) = Ok m1
    /\ py_getitem (mc_x0 (fit_call (set_s m sj))) 8 = Ok sj
    /\ py_getitem (OptimizeResult.x res) 8 = Ok (s (prm m1)).
Proof.
  intros Hy0 Hds Ht Hres Hlen.
  assert (Hy : get_initial_state (set_s m sj) = Ok y0) by exact Hy0.
  assert (Hd : dataset (set_s m sj) = Some ds) by exact Hds.
  destruct (fit_returns (set_s m sj) Hy Hd Ht Hres Hlen) as [m1 F].
  exists m1. split; [exact F |].
  apply fit_inv in F.
  destruct F as (y & res' & x0 & x1 & x2 & x3 & x4 & x5 & x6 & x7 & x8 & x9
                 & _ & Hres' & _ & _ & _ & _ & _ & _ & _ & _ & H8 & _ & ->).
  rewrite Hres in Hres'. inversion Hres'; subst res'.
  split; [| exact H8].
  unfold fit_call.
  destruct (LBFGSB (hyper (set_s m sj))); [reflexivity |].
  destruct (cobyla (hyper (set_s m sj))); reflexivity.
Qed.

End FitErrors.

(** X12 on an optimizer that answers with three components. *)
Lemma fit_raises_witness :
  fit (E := ReferenceVariants.externals_short) model_three_days = Raise IndexError.
Proof.
  apply (proj2 (@fit_raises ReferenceVariants.externals_short model_three_days IndexError)).
  right. eexists. eexists. split; [reflexivity |]. split; [reflexivity |].
  right. eexists. split; [reflexivity |].
  right. eexists. split; [reflexivity |]. split; [cbn; lia | reflexivity].
Defined.

(** X13 on an optimizer that moves every parameter by one step: the grid
    value 1/2 is where the optimizer starts, and [fit] leaves 11/20. *)
Lemma fit_after_set_s_witness :
  exists res m1,
    minimize (Externals := MovingOptimizer.externals)
             (fit_call (E := MovingOptimizer.externals) (set_s model_three_days (1 # 2)))
    = Ok res
    /\ fit (E := MovingOptimizer.externals) (set_s model_three_days (1 # 2)) = Ok m1
    /\ py_getitem (mc_x0 (fit_call (E := MovingOptimizer.externals)
                                   (set_s model_three_days (1 # 2)))) 8 = Ok (1 # 2)
    /\ py_getitem (OptimizeResult.x res) 8 = Ok (s (prm m1))
    /\ s (prm m1) = 11 # 20
    /\ ~ s (prm m1) == 1 # 2.
Proof.
  destruct (minimize (Externals := MovingOptimizer.externals)
                     (fit_call (E := MovingOptimizer.externals)
                               (set_s model_three_days (1 # 2))))
    as [res | e] eqn:M; [| vm_compute in M; discriminate M].
  assert (V : res = {| OptimizeResult.x :=
                         [7 # 20; 17 # 20; 1 # 5; 1 # 10; 1 # 4; 3 # 20; 3 # 20;
                          7 # 20; 11 # 20; 4 # 5];
                       OptimizeResult.success := false |})
    by (vm_compute in M; inversion M; reflexivity).
  destruct (@fit_after_set_s MovingOptimizer.externals model_three_days (1 # 2)
              (mkState (1000000 - 1 - 1 - 1) 1 1 0 1 0 0 1 1)
              [[0; 1; 10; 1; 1; 0; 0; 1]; [1; 2; 10; 2; 3; 0; 0; 2];
               [2; 3; 10; 4; 7; 1; 0; 3]]
              [0; 1; 2] res eq_refl eq_refl eq_refl M)
    as (m1 & F & H0 & H8).
  { rewrite V. cbn. lia. }
  exists res, m1. split; [reflexivity |]. split; [exact F |].
  split; [exact H0 |]. split; [exact H8 |].
  assert (B : s (prm m1) = 11 # 20)
    by (rewrite V in H8; cbn in H8; inversion H8; reflexivity).
  rewrite B. split; [reflexivity |].
  intro H. vm_compute in H. discriminate H.
Defined.

(* ================================================================== *)
(** ** More on [import_dataset] *)
(* ================================================================== *)

Lemma set_first_inv (raw raw1 : Table) (col : nat) (v : Q) :
  set_first raw col v = Ok raw1 ->
  exists row rest,
    raw = row :: rest
    /\ (col < length row)%nat
    /\ raw1 = (firstn col row ++ v :: skipn (S col) row) :: rest.
Proof.
  unfold set_first. destruct raw as [| row rest]; [discriminate |].
  destruct (col <? length row)%nat eqn:L; [| discriminate].
  apply Nat.ltb_lt in L. intro H. inversion H; subst. eauto.
Qed.

Lemma replaced_length (row : list Q) (col : nat) (v : Q) :
  (col < length row)%nat ->
  length (firstn col row ++ v :: skipn (S col) row) = length row.
Proof.
  intro L. rewrite length_app, length_firstn. cbn [length].
  rewrite length_skipn. lia.
Qed.

Lemma inserted_length (row : list Q) (loc : nat) (v : Q) :
  (loc <= length row)%nat ->
  length (firstn loc row ++ v :: skipn loc row) = S (length row).
Proof.
  intro L. rewrite length_app, length_firstn. cbn [length].
  rewrite length_skipn. lia.
Qed.

Lemma insert_column_rows (raw : Table) (loc : nat) :
  forall values raw',
    insert_column raw loc values = Ok raw' ->
    Forall2 (fun r r' => (loc <= length r)%nat /\ length r' = S (length r)) raw raw'.
Proof.
  induction raw as [| row rest IH]; intros values raw' H.
  - cbn in H. inversion H; subst. constructor.
  - destruct values as [| v vs]; [discriminate |]. cbn in H.
    destruct (loc <=? length row)%nat eqn:L; [| discriminate].
    apply Nat.leb_le in L.
    bind_inv_as H rest' Hrest. inversion H; subst.
    constructor; [| eapply IH; eassumption].
    split; [exact L | apply inserted_length; exact L].
Qed.

Lemma insert_column_returns (raw : Table) (loc : nat) :
  rows_have loc raw ->
  forall values, length values = length raw ->
                 exists raw', insert_column raw loc values = Ok raw'.
Proof.
  induction raw as [| row rest IH]; intros Hrows values Hlen.
  - cbn. eauto.
  - destruct values as [| v vs]; [discriminate |].
    inversion Hrows as [| ? ? Hrow Hrest]; subst. cbn.
    replace (loc <=? length row)%nat with true by (symmetry; apply Nat.leb_le; exact Hrow).
    destruct (IH Hrest vs) as [rest' ->]; [cbn in Hlen; lia |].
    cbn [bind]. eauto.
Qed.

Lemma np_column_returns (a : Table) (j : nat) :
  rows_have (S j) a -> exists col, np_column a (Z.of_nat j) = Ok col.
Proof.
  induction a as [| row rest IH]; intro Hrows; cbn.
  - eauto.
  - inversion Hrows as [| ? ? Hrow Hrest]; subst.
    rewrite py_getitem_nth_error.
    destruct (nth_error row j) as [v |] eqn:N.
    + cbn [bind]. destruct (IH Hrest) as [col ->]. cbn [bind]. eauto.
    + apply nth_error_None in N. lia.
Qed.

Section ImportShape.

Context {E : Externals}.

(** The steps of an import that returns, without smoothing. *)
Lemma import_dataset_inv (m m' : SEIR) (raw : Table) :
  smoothing (hyper m) = false ->
  import_dataset m raw = Ok m' ->
  exists raw1 col raw2 d01,
    set_first raw 1 1 = Ok raw1
    /\ np_column raw1 1 = Ok col
    /\ insert_column raw1 7 col = Ok raw2
    /\ nd_get raw2 0 1 = Ok d01
    /\ dataset m' = Some raw2 /\ dataframe m' = Some raw2
    /\ prm m' = prm m /\ hyper m' = hyper m
    /\ I_0 (init0 m') = np_div (Finite d01) (Finite (s (prm m) * t (prm m))).
Proof.
  intros Hs H. unfold import_dataset in H. rewrite Hs in H.
  bind_inv_as H raw1 H1. bind_inv_as H col Hcol. bind_inv_as H raw2 H2.
  cbv zeta in H. bind_inv_as H d01 Hd.
  inversion H; subst. cbn.
  exists raw1, col, raw2, d01. repeat split; assumption.
Qed.

Lemma nd_get_first_row (r : list Q) (rest : Table) (j : nat) :
  nd_get (r :: rest) 0 (Z.of_nat j)
  = match nth_error r j with
    | Some v => Ok v
    | None => Raise IndexError
    end.
Proof.
  unfold nd_get.
  rewrite (@py_getitem_nonneg _ (r :: rest) 0) by lia. cbn [Z.to_nat nth_error bind].
  apply py_getitem_nth_error.
Qed.

Lemma import_first_row_length (row : list Q) (rest raw2 : Table) (col : list Q) :
  (1 < length row)%nat ->
  insert_column ((firstn 1 row ++ 1 :: skipn 2 row) :: rest) 7 col = Ok raw2 ->
  (7 <= length row)%nat
  /\ rows_have 7 rest
  /\ Forall2 (fun r r' => length r' = S (length r)) (row :: rest) raw2.
Proof.
  intros L H2.
  pose proof (replaced_length row 1 L) as L1.
  set (row1 := firstn 1 row ++ 1 :: skipn 2 row) in *. clearbody row1.
  apply insert_column_rows in H2.
  inversion H2 as [| ? r2 ? rest2 [Hrow Hlen] Hrest]; subst.
  split; [lia |]. split.
  - clear - Hrest. induction Hrest as [| r r' a b [Hr _] _ IH]; constructor; assumption.
  - constructor; [lia |].
    clear - Hrest. induction Hrest as [| r r' a b [_ Hr] _ IH]; constructor; assumption.
Qed.

(** X14: without smoothing, [import_dataset] returns exactly on the frames
    that have a row and at least seven columns in every row. *)
Theorem import_dataset_returns_iff (m : SEIR) (raw : Table) :
  smoothing (hyper m) = false ->
  (exists m', import_dataset m raw = Ok m') <-> (raw <> [] /\ rows_have 7 raw).
Proof.
  intro Hs. split.
  - intros [m' H]. apply (@import_dataset_inv m m' raw Hs) in H.
    destruct H as (raw1 & col & raw2 & d01 & H1 & _ & H2 & _).
    apply set_first_inv in H1. destruct H1 as (row & rest & -> & L & ->).
    split; [discriminate |].
    destruct (@import_first_row_length row rest raw2 col L H2) as (L7 & R7 & _).
    constructor; assumption.
  - intros [Hne Hrows]. destruct raw as [| row rest]; [contradiction |].
    inversion Hrows as [| ? ? Hrow Hrest]; subst.
    unfold import_dataset, set_first.
    replace (1 <? length row)%nat with true by (symmetry; apply Nat.ltb_lt; lia).
    cbn [bind]. set (row1 := firstn 1 row ++ 1 :: skipn 2 row).
    assert (L1 : length row1 = length row) by (apply replaced_length; lia).
    assert (R7 : rows_have 7 (row1 :: rest)) by (constructor; [lia | exact Hrest]).
    destruct (@np_column_returns (row1 :: rest) 1
                (@rows_have_weaken 7 2 _ ltac:(lia) R7)) as [col Hcol].
    change (Z.of_nat 1) with 1%Z in Hcol. rewrite Hcol. cbn [bind].
    destruct (@insert_column_returns (row1 :: rest) 7 R7 col
                (np_column_length _ _ Hcol)) as [raw2 H2].
    rewrite H2. cbn [bind]. rewrite Hs.
    pose proof (insert_column_rows _ _ _ H2) as F.
    inversion F as [| ? r2 ? rest2 [_ Hlen2] _]; subst.
    pose proof (nd_get_first_row r2 rest2 1) as G.
    change (Z.of_nat 1) with 1%Z in G. rewrite G.
    destruct (nth_error r2 1) as [d01 |] eqn:N.
    + cbn [bind]. eauto.
    + apply nth_error_None in N. lia.
Qed.

(** X15: without smoothing, an import that returns leaves a dataset, equal
    to the dataframe, with the rows of the frame in number, each one column
    longer and so of eight columns at least, and does not touch the
    parameters nor the hyperparameters. *)
Theorem import_dataset_shape (m m' : SEIR) (raw : Table) :
  smoothing (hyper m) = false ->
  import_dataset m raw = Ok m' ->
  exists ds,
    dataset m' = Some ds /\ dataframe m' = Some ds
    /\ Forall2 (fun r r' => length r' = S (length r)) raw ds
    /\ rows_have 8 ds
    /\ prm m' = prm m /\ hyper m' = hyper m.
Proof.
  intros Hs H. apply (@import_dataset_inv m m' raw Hs) in H.
  destruct H as (raw1 & col & raw2 & d01 & H1 & _ & H2 & _ & Hd & Hf & Hp & Hh & _).
  exists raw2. repeat (split; [assumption |]).
  apply set_first_inv in H1. destruct H1 as (row & rest & -> & L & ->).
  destruct (@import_first_row_length row rest raw2 col L H2) as (L7 & R7 & F).
  split; [exact F |]. split; [| split; assumption].
  assert (R : rows_have 7 (row :: rest)) by (constructor; assumption).
  clear - F R. unfold rows_have in *.
  induction F as [| r r' a b Hr _ IH]; [constructor |].
  inversion R; subst. constructor; [lia | apply IH; assumption].
Qed.

(** X16: whatever the frame holds for the first day, after an import
    without smoothing the model starts from one infected: the positive
    tests of the first row have been set to 1, so [get_initial_state]
    returns [I = E = CT = 1], [H = CH] the hospitalised of the first day and
    [S = 1000000 - 1 - H - 1], and the field [I_0] is [1 / (s * t)]. *)
Theorem import_dataset_initial_state (m m' : SEIR) (raw : Table) :
  smoothing (hyper m) = false ->
  import_dataset m raw = Ok m' ->
  exists h,
    nd_get raw 0 3 = Ok h
    /\ get_initial_state m' = Ok (mkState (1000000 - 1 - h - 1) 1 1 0 h 0 0 1 h)
    /\ I_0 (init0 m') = np_div (Finite 1) (Finite (s (prm m) * t (prm m))).
Proof.
  intros Hs H. apply (@import_dataset_inv m m' raw Hs) in H.
  destruct H as (raw1 & col & raw2 & d01 & H1 & _ & H2 & H01 & Hd & _ & _ & _ & HI).
  apply set_first_inv in H1. destruct H1 as (row & rest & -> & L & ->).
  destruct (@import_first_row_length row rest raw2 col L H2) as (L7 & _ & _).
  destruct row as [| a [| b [| c [| h [| e5 [| e6 [| e7 r]]]]]]]; cbn in L7; try lia.
  exists h. split; [exact (nd_get_first_row (a :: b :: c :: h :: e5 :: e6 :: e7 :: r) rest 3) |].
  destruct col as [| v vs]; [discriminate |].
  cbn in H2.
  destruct (insert_column rest 7 vs) as [rest' |]; [| discriminate].
  cbn in H2. inversion H2; subst raw2.
  pose proof (nd_get_first_row (a :: 1 :: c :: h :: e5 :: e6 :: e7 :: v :: r) rest' 1) as G1.
  pose proof (nd_get_first_row (a :: 1 :: c :: h :: e5 :: e6 :: e7 :: v :: r) rest' 3) as G3.
  cbn [nth_error] in G1, G3. change (Z.of_nat 1) with 1%Z in G1.
  change (Z.of_nat 3) with 3%Z in G3.
  assert (D1 : d01 = 1) by (rewrite G1 in H01; inversion H01; reflexivity).
  subst d01. split; [| exact HI].
  unfold get_initial_state, the_dataset. rewrite Hd. cbn [bind].
  rewrite G1. cbn [bind]. rewrite G3. reflexivity.
Qed.

End ImportShape.

Lemma import_dataset_returns_iff_witness :
  smoothing (hyper SEIR_init) = false
  /\ ((exists m', import_dataset (E := Reference.externals) SEIR_init raw_three_days = Ok m')
      <-> (raw_three_days <> [] /\ rows_have 7 raw_three_days)).
Proof.
  split; [reflexivity |].
  exact (@import_dataset_returns_iff Reference.externals SEIR_init raw_three_days eq_refl).
Defined.

Lemma import_dataset_three_days_value :
  exists m',
    import_dataset (E := Reference.externals) SEIR_init raw_three_days = Ok m'.
Proof. eexists. reflexivity. Qed.

Lemma import_dataset_shape_witness :
  smoothing (hyper SEIR_init) = false
  /\ exists m',
      import_dataset (E := Reference.externals) SEIR_init raw_three_days = Ok m'
      /\ exists ds,
          dataset m' = Some ds /\ dataframe m' = Some ds
          /\ Forall2 (fun r r' => length r' = S (length r)) raw_three_days ds
          /\ rows_have 8 ds
          /\ prm m' = prm SEIR_init /\ hyper m' = hyper SEIR_init.
Proof.
  split; [reflexivity |].
  destruct import_dataset_three_days_value as [m' H].
  exists m'. split; [exact H |].
  exact (@import_dataset_shape Reference.externals SEIR_init m' raw_three_days eq_refl H).
Defined.

Lemma import_dataset_initial_state_witness :
  smoothing (hyper SEIR_init) = false
  /\ exists m',
      import_dataset (E := Reference.externals) SEIR_init raw_three_days = Ok m'
      /\ exists h,
          nd_get raw_three_days 0 3 = Ok h
          /\ get_initial_state m' = Ok (mkState (1000000 - 1 - h - 1) 1 1 0 h 0 0 1 h)
          /\ I_0 (init0 m')
             = np_div (Finite 1) (Finite (s (prm SEIR_init) * t (prm SEIR_init))).
Proof.
  split; [reflexivity |].
  destruct import_dataset_three_days_value as [m' H].
  exists m'. split; [exact H |].
  exact (@import_dataset_initial_state Reference.externals SEIR_init m' raw_three_days
           eq_refl H).
Defined.

(* ================================================================== *)
(** ** More on the sweep *)
(* ================================================================== *)

Section SweepErrorValue.

Context {E : Externals}.

(** X17: the error of a grid point, when the inner loop returns it, is a
    finite float: every term that would be nan or minus infinity has been
    replaced by -1000 before it is added. *)
Theorem sensib_error_finite (m : SEIR) (pred : list State) (params : list Q)
        (err : npfloat) :
  sensib_error m pred params = Ok err -> is_finite err.
Proof.
  unfold sensib_error. intro H. bind_inv_as H prb Hprb. inversion H; subst.
  assert (F : is_finite prb).
  { eapply for_each_invariant; [| | exact Hprb]; [| exact Logic.I].
    intros acc z acc' Hacc Hb. bind_inv_as Hb knp Hk.
    destruct knp as [[k n] p]. inversion Hb; subst.
    pose proof (sensib_term_finite k n p) as T.
    destruct acc, (sensib_term k n p); cbn in *; trivial; contradiction. }
  destruct prb; cbn in *; trivial; contradiction.
Qed.

End SweepErrorValue.

Lemma sensib_error_finite_witness :
  exists err,
    sensib_error (E := Reference.externals) model_one_day
                 [mkState 0 0 0 0 4 0 0 0 0] [3 # 10; 8 # 10; 15 # 100; 1 # 2] = Ok err
    /\ is_finite err.
Proof.
  assert (H : exists err,
             sensib_error (E := Reference.externals) model_one_day
                          [mkState 0 0 0 0 4 0 0 0 0] [3 # 10; 8 # 10; 15 # 100; 1 # 2]
             = Ok err)
    by (eexists; vm_compute; reflexivity).
  destruct H as [err H]. exists err. split; [exact H |].
  exact (@sensib_error_finite Reference.externals _ _ _ _ H).
Defined.

(* ================================================================== *)
(** ** The script *)
(* ================================================================== *)

Lemma for_each_unit_each {A : Type} (xs : list A) (body : unit -> A -> result unit) (u : unit) :
  for_each xs body tt = Ok u -> Forall (fun x => exists u', body tt x = Ok u') xs.
Proof.
  induction xs as [| x rest IH]; cbn; intro H; [constructor |].
  bind_inv_as H u1 H1. destruct u1. constructor; [eauto | apply IH; exact H].
Qed.

Lemma nd_get_Ok_row (a : Table) (i : nat) (j : Z) (v : Q) :
  nd_get a (Z.of_nat i) j = Ok v -> (i < length a)%nat.
Proof.
  unfold nd_get. rewrite py_getitem_nth_error.
  destruct (nth_error a i) as [row |] eqn:N; [| discriminate].
  intros _. apply nth_error_Some. congruence.
Qed.

Section ScriptFacts.

Context {E : Externals}.

Lemma import_dataset_rows (m m' : SEIR) (raw : Table) :
  smoothing (hyper m) = false ->
  import_dataset m raw = Ok m' ->
  exists ds, dataset m' = Some ds /\ length ds = length raw.
Proof.
  intros Hs H. apply (@import_dataset_inv E m m' raw Hs) in H.
  destruct H as (raw1 & col & raw2 & d01 & H1 & _ & H2 & _ & Hd & _).
  apply set_first_inv in H1. destruct H1 as (row & rest & -> & L & ->).
  destruct (@import_first_row_length row rest raw2 col L H2) as (_ & _ & F).
  exists raw2. split; [exact Hd |].
  symmetry. eapply Forall2_length; eassumption.
Qed.

(** What a run of the script that completes has gone through. *)
Lemma main_inv (raw : Table) (model : SEIR) (prd : list State) :
  main raw = Ok (model, prd) ->
  exists m1 ds pred,
    import_dataset SEIR_init raw = Ok m1
    /\ fit m1 = Ok model
    /\ dataset model = Some ds
    /\ length ds = length raw
    /\ predict model (Z.of_nat (length ds)) None None = Ok pred
    /\ prd = map (scale_recovered (s (prm model)) (t (prm model))) pred
    /\ Forall (fun i => exists u, (_ <- nd_get ds i 7 ;; _ <- pred_get prd i 7 ;; Ok tt) = Ok u)
              (py_range 10).
Proof.
  unfold main. intro H.
  bind_inv_as H m1 Himp. bind_inv_as H m2 Hfit.
  cbv zeta in H.
  bind_inv_as H rows Hrows. bind_inv_as H pred Hpred. bind_inv_as H ds Hds.
  bind_inv_as H u1 Hloop. repeat bind_inv H. inversion H; subst.
  destruct (@import_dataset_rows SEIR_init m1 raw eq_refl Himp) as (ds1 & Hd1 & Hl1).
  pose proof (fit_inv _ Hfit) as I.
  destruct I as (y0 & res & x0 & x1 & x2 & x3 & x4 & x5 & x6 & x7 & x8 & x9
                 & _ & _ & _ & _ & _ & _ & _ & _ & _ & _ & _ & _ & Em).
  assert (Hdm : dataset model = Some ds1) by (rewrite Em; exact Hd1).
  unfold the_dataset in Hds. rewrite Hdm in Hds. inversion Hds; subst ds.
  unfold dataset_rows in Hrows. rewrite Hdm in Hrows. inversion Hrows; subst rows.
  exists m1, ds1, pred. repeat (split; [assumption || reflexivity |]).
  pose proof (@for_each_unit_each _ _ _ _ Hloop) as F. exact F.
Qed.

(** X18: the script completes only on a frame of at least ten days: its
    first loop reads rows 0 to 9 of the dataset and of the prediction. *)
Theorem main_needs_ten_days (raw : Table) (model : SEIR) (prd : list State) :
  main raw = Ok (model, prd) -> (10 <= length raw)%nat.
Proof.
  intro H. apply main_inv in H.
  destruct H as (m1 & ds & pred & _ & _ & _ & Hl & _ & _ & F).
  rewrite Forall_forall in F.
  destruct (F (Z.of_nat 9)) as [u Hu].
  { unfold py_range. apply in_map. apply in_seq. lia. }
  bind_inv_as Hu v Hv. apply nd_get_Ok_row in Hv. lia.
Qed.

(** X19: the prediction the script prints and plots is the one [predict]
    returned for the fitted model, but for column 3, the recovered, which
    has been multiplied by [s * t]; the hospitalised, critical, dead and
    cumulative columns it shows are not scaled. *)
Theorem main_scales_only_recovered (raw : Table) (model : SEIR) (prd : list State) :
  main raw = Ok (model, prd) ->
  exists pred,
    predict model (Z.of_nat (length raw)) None None = Ok pred
    /\ Forall2 (fun a b => same_but_recovered a b
                           /\ cR b = cR a * s (prm model) * t (prm model))
               pred prd.
Proof.
  intro H. apply main_inv in H.
  destruct H as (m1 & ds & pred & _ & _ & _ & Hl & Hp & -> & _).
  exists pred. rewrite <- Hl. split; [exact Hp |].
  clear. induction pred as [| r rest IH]; cbn [map]; constructor; [| exact IH].
  unfold same_but_recovered, scale_recovered. cbn. repeat split.
Qed.

End ScriptFacts.

Lemma returns_Ok {A : Type} (r : result A) :
  returns r = true -> exists a, r = Ok a.
Proof.
  destruct r as [a | e]; cbn; intro H; [eauto | discriminate].
Qed.

(** The script completes on ten days of data. *)
Lemma main_ten_days_returns :
  exists model prd,
    main (E := ReferenceVariants.externals_reduced) raw_ten_days = Ok (model, prd).
Proof.
  destruct (@returns_Ok _ (main (E := ReferenceVariants.externals_reduced) raw_ten_days))
    as [[model prd] M].
  - vm_compute. reflexivity.
  - eauto.
Qed.

Lemma main_needs_ten_days_witness :
  exists model prd,
    main (E := ReferenceVariants.externals_reduced) raw_ten_days = Ok (model, prd)
    /\ (10 <= length raw_ten_days)%nat.
Proof.
  destruct main_ten_days_returns as (model & prd & M).
  exists model, prd. split; [exact M |].
  exact (@main_needs_ten_days ReferenceVariants.externals_reduced _ _ _ M).
Defined.

Lemma main_scales_only_recovered_witness :
  exists model prd,
    main (E := ReferenceVariants.externals_reduced) raw_ten_days = Ok (model, prd)
    /\ exists pred,
        predict (E := ReferenceVariants.externals_reduced) model
                (Z.of_nat (length raw_ten_days)) None None = Ok pred
        /\ Forall2 (fun a b => same_but_recovered a b
                               /\ cR b = cR a * s (prm model) * t (prm model))
                   pred prd.
Proof.
  destruct main_ten_days_returns as (model & prd & M).
  exists model, prd. split; [exact M |].
  exact (@main_scales_only_recovered ReferenceVariants.externals_reduced _ _ _ M).
Defined.
